(** * multi-server.c: the fork-per-connection and the thread-pool web server

    The source file holds two programs.  The first forks one child per
    accepted connection and keeps response counters in shared memory; the
    second hands accepted sockets through a blocking queue to a pool of
    worker threads.  Both parse one request line, skip the headers and
    answer with a status line, an error page or the file.

    What both programs share (the C string primitives they call, the table
    of status codes, the parsing steps) comes first; [Module Fork] and
    [Module Pool] hold what differs. *)

From Stdlib Require Import ZArith Ascii String List Lia DecimalString.
From stdpp Require Import base gmap strings list.

Local Open Scope Z_scope.

(** ** Characters and C strings

    A buffer is a [string]: a sequence of bytes, any of the 256 values.  The
    C library reads a buffer as the bytes before its first zero byte. *)

Definition NUL : ascii := "000"%char.
Definition TAB : ascii := "009"%char.
Definition LF : ascii := "010"%char.
Definition CR : ascii := "013"%char.
Definition SP : ascii := " "%char.
Definition DQ : ascii := "034"%char.

Definition crlf : string := String CR (String LF "").
Definition lf : string := String LF "".
Definition dq : string := String DQ "".

(** The C string held by a buffer. *)
Fixpoint c_str (buf : string) : string :=
  match buf with
  | EmptyString => EmptyString
  | String c r => if Ascii.eqb c NUL then EmptyString else String c (c_str r)
  end.

(** A buffer without zero bytes is its own C string. *)
Definition nul_free (s : string) : Prop := c_str s = s.

Definition uchar (c : ascii) : Z := Z.of_nat (nat_of_ascii c).

(** [strcmp]: the difference of the first two bytes that differ, as unsigned
    chars; the end of a string counts as a zero byte. *)
Fixpoint strcmp (a b : string) : Z :=
  match a, b with
  | EmptyString, EmptyString => 0
  | EmptyString, String d _ => 0 - uchar d
  | String c _, EmptyString => uchar c
  | String c a', String d b' =>
      if Ascii.eqb c d then
        if Ascii.eqb c NUL then 0 else strcmp a' b'
      else uchar c - uchar d
  end.

(** [p + n] for a pointer into a string. *)
Fixpoint advance (n : nat) (s : string) : string :=
  match n, s with
  | O, _ => s
  | S n', String _ r => advance n' r
  | S _, EmptyString => EmptyString
  end.

(** [strstr]: the first place where [needle] starts, NULL when there is none. *)
Fixpoint strstr (haystack needle : string) : option string :=
  if String.prefix needle haystack then Some haystack
  else match haystack with
       | EmptyString => None
       | String _ r => strstr r needle
       end.

(** A [char *]: NULL or a string. *)
Definition cptr := option string.

Definition not_null (p : cptr) : bool :=
  match p with
  | Some _ => true
  | None => false
  end.

(** [*s]: the first byte, the terminating zero for the empty string. *)
Definition deref (s : string) : ascii :=
  match s with
  | EmptyString => NUL
  | String c _ => c
  end.

(** ** printf

    The conversions the server uses: [%s] and [%d].  glibc prints a NULL
    string as [(null)]. *)

Inductive parg :=
| PStr (s : cptr)
| PInt (z : Z).

Definition show_int (z : Z) : string := NilZero.string_of_int (Z.to_int z).

Definition show_str (s : cptr) : string :=
  match s with
  | Some s => s
  | None => "(null)"
  end.

Definition show_arg (a : parg) : string :=
  match a with
  | PStr s => show_str s
  | PInt z => show_int z
  end.

Fixpoint sprintf (fmt : string) (args : list parg) : string :=
  match fmt with
  | EmptyString => EmptyString
  | String c f =>
      if Ascii.eqb c "%" then
        match f with
        | String k f' =>
            if Ascii.eqb k "s" || Ascii.eqb k "d" then
              match args with
              | a :: args' => show_arg a +:+ sprintf f' args'
              | [] => sprintf f' []
              end
            else String c (sprintf f args)
        | EmptyString => String c EmptyString
        end
      else String c (sprintf f args)
  end.

(** [strcat(dst, src)].  A NULL source would fault; the only pointer the
    server passes is the result of [getReasonPhrase], which is never NULL
    ([scan_codes_not_null] below). *)
Definition strcat (dst : string) (src : cptr) : string :=
  dst +:+ show_str src.

(** ** HTTP/1.0 status codes and reason phrases *)

Definition HTTP_StatusCodes : list (Z * cptr) :=
  [ (200, Some "OK");
    (201, Some "Created");
    (202, Some "Accepted");
    (204, Some "No Content");
    (301, Some "Moved Permanently");
    (302, Some "Moved Temporarily");
    (304, Some "Not Modified");
    (400, Some "Bad Request");
    (401, Some "Unauthorized");
    (403, Some "Forbidden");
    (404, Some "Not Found");
    (500, Some "Internal Server Error");
    (501, Some "Not Implemented");
    (502, Some "Bad Gateway");
    (503, Some "Service Unavailable");
    (0, None) ].

(** The loop of [getReasonPhrase] from index [i] on, as a walk down the rest
    of the array.  The array ends in the entry with status 0, so the walk
    never leaves it; past the end the model answers NULL. *)
Fixpoint scan_codes (tbl : list (Z * cptr)) (statusCode : Z) : cptr :=
  match tbl with
  | [] => None
  | (status, reason) :: rest =>
      if status >? 0 then
        if status =? statusCode then reason else scan_codes rest statusCode
      else Some "Unknown Status Code"
  end.

Definition getReasonPhrase (statusCode : Z) : cptr :=
  scan_codes HTTP_StatusCodes statusCode.

(** ** Reading lines: fgets

    The client's side of the connection: the bytes that arrive before the
    input ends, and whether it ends in a read error instead of end of file. *)

Record stream := {
  pending : string;
  broken : bool
}.

(** Up to [room] bytes, stopping after a line feed.  The third component
    says that the input ran out first. *)
Fixpoint gets (room : nat) (s : string) : string * string * bool :=
  match room with
  | O => (EmptyString, s, false)
  | S room' =>
      match s with
      | EmptyString => (EmptyString, EmptyString, true)
      | String c r =>
          if Ascii.eqb c LF then (String c EmptyString, r, false)
          else let '(l, rest, out) := gets room' r in (String c l, rest, out)
      end
  end.

Definition is_empty (s : string) : bool :=
  match s with
  | EmptyString => true
  | String _ _ => false
  end.

(** [fgets(buf, size, fp)]: NULL on a read error, and at end of file when no
    byte was read; otherwise the bytes stored in [buf] and the stream after
    them. *)
Definition fgets (size : nat) (fp : stream) : option (string * stream) :=
  let '(l, rest, out) := gets (size - 1) (pending fp) in
  if out && (broken fp || is_empty l) then None
  else Some (l, {| pending := rest; broken := broken fp |}).

(** ** Tokens: strtok *)

Definition token_separators : string :=
  String TAB (String SP (String CR (String LF ""))).

Fixpoint is_delim (delim : string) (c : ascii) : bool :=
  match delim with
  | EmptyString => false
  | String d r => Ascii.eqb c d || is_delim r c
  end.

Fixpoint skip_delims (delim s : string) : string :=
  match s with
  | EmptyString => EmptyString
  | String c r => if is_delim delim c then skip_delims delim r else s
  end.

(** The token at the head of [s], and where the next call resumes: after the
    delimiter that [strtok] overwrites with a zero byte. *)
Fixpoint take_token (delim s : string) : string * string :=
  match s with
  | EmptyString => (EmptyString, EmptyString)
  | String c r =>
      if is_delim delim c then (EmptyString, r)
      else let (tok, rest) := take_token delim r in (String c tok, rest)
  end.

(** One call of [strtok] on the saved position [s]: the token (NULL when only
    delimiters are left) and the position saved for the next call. *)
Definition strtok (s delim : string) : cptr * string :=
  match skip_delims delim s with
  | EmptyString => (None, EmptyString)
  | String c r => let (tok, rest) := take_token delim (String c r) in (Some tok, rest)
  end.

(** What splitting a line at white space means: the maximal runs of bytes
    other than tab, space, carriage return and line feed.  This follows the
    words of the specification, not the code; [strtok_fields] relates the
    two. *)
Fixpoint fields (s : string) : list string :=
  match s with
  | EmptyString => []
  | String c r =>
      if is_delim token_separators c then fields r
      else match r with
           | EmptyString => [String c EmptyString]
           | String d _ =>
               if is_delim token_separators d then String c EmptyString :: fields r
               else match fields r with
                    | w :: ws => String c w :: ws
                    | [] => [String c EmptyString]
                    end
           end
  end.

(** [s] occurs in [t]. *)
Definition contains (t s : string) : Prop :=
  exists a b : string, t = a +:+ s +:+ b.

(** [t] ends with [s]. *)
Definition ends_with (t s : string) : Prop :=
  exists a : string, t = a +:+ s.

(** ** The environment of a request *)

(** The file system as the server sees it through [stat], [fopen] and
    [fread], and the socket as it answers [send] during a file transfer. *)
Record filesys := {
  is_dir : string -> bool;          (* stat() succeeds and S_ISDIR holds *)
  fopen : string -> option string;  (* the bytes fread() delivers; None: fopen() fails *)
  send_ok : nat -> bool             (* send() takes the k-th block of a file whole *)
}.

Definition DISK_IO_BUF_SIZE : nat := 4096.

(** The first [n] bytes: what one [fread] of [n] bytes delivers. *)
Fixpoint fread (n : nat) (s : string) : string :=
  match n, s with
  | O, _ => EmptyString
  | S n', String c r => String c (fread n' r)
  | S _, EmptyString => EmptyString
  end.

(** The loop that sends an open file: [fread] a block of [size] bytes, [send]
    it, stop when [fread] returns 0 or [send] comes back short.  The result
    lists the blocks handed to [send]; [k] counts them.  Each round consumes
    at least one byte, so [String.length data] rounds always suffice
    ([send_file_whole] below). *)
Fixpoint send_blocks (size fuel : nat) (fs : filesys) (k : nat) (data : string)
  : list string :=
  match fuel with
  | O => []
  | S fuel' =>
      match data with
      | EmptyString => []
      | String _ _ =>
          let block := fread size data in
          if send_ok fs k then
            block :: send_blocks size fuel' fs (S k) (advance size data)
          else [block]
      end
  end.

Definition send_file (fs : filesys) (data : string) : list string :=
  send_blocks DISK_IO_BUF_SIZE (String.length data) fs 0 data.

(** The path [handleFileRequest] builds: web root, then the URI, then
    [index.html] when that ends in a slash. *)
Fixpoint last_char (s : string) : option ascii :=
  match s with
  | EmptyString => None
  | String c EmptyString => Some c
  | String _ r => last_char r
  end.

Definition resolve (webRoot requestURI : string) : string :=
  let file := webRoot +:+ requestURI in
  match last_char file with
  | Some c => if Ascii.eqb c "/" then file +:+ "index.html" else file
  | None => file
  end.

(** The buffer [sendStatusLine] builds (both programs build the same). *)
Definition status_buffer (statusCode : Z) : string :=
  let reasonPhrase := getReasonPhrase statusCode in
  let buf := sprintf "HTTP/1.0 %d " [PInt statusCode] in
  let buf := strcat buf reasonPhrase in
  let buf := buf +:+ crlf in
  let buf := buf +:+ crlf in
  if statusCode =? 200 then buf
  else
    let body :=
      sprintf ("<html><body>" +:+ lf +:+ "<h1>%d %s</h1>" +:+ lf +:+
               "</body></html>" +:+ lf)
              [PInt statusCode; PStr reasonPhrase] in
    buf +:+ body.

(** [Send(sock, buf)] hands the C string in [buf] to [send].  The model keeps
    the list of buffers handed to [send] on the client socket, oldest first;
    the result of [Send] is not looked at by any caller. *)
Definition Send (sent : list string) (buf : string) : list string :=
  sent ++ [c_str buf].

(** ** The request lifecycle

    The code between [fdopen] and [fclose] is the same text in the child
    branch of the first program's [main] and in [thr_worker], up to the
    [area] argument of the two functions it calls.  [request] is that text
    over the program's state [St] and those two functions. *)

Inductive headers :=
| Blank (rest : stream)   (* the empty line was read *)
| Closed                  (* fgets returned NULL first *)
| Unfinished.             (* the model ran out of rounds *)

Fixpoint skip_headers (fuel : nat) (clntFp : stream) : headers :=
  match fuel with
  | O => Unfinished
  | S fuel' =>
      match fgets 1000 clntFp with
      | None => Closed
      | Some (line, clntFp') =>
          if (strcmp crlf (c_str line) =? 0) || (strcmp lf (c_str line) =? 0)
          then Blank clntFp'
          else skip_headers fuel' clntFp'
      end
  end.

(** What the log line is printed from, and the state at [loop_end]. *)
Record outcome (St : Type) := {
  method : cptr;
  requestURI : cptr;
  httpVersion : cptr;
  statusCode : Z;
  final : St
}.
Arguments method {St} _.
Arguments requestURI {St} _.
Arguments httpVersion {St} _.
Arguments statusCode {St} _.
Arguments final {St} _.

(** The URI test: at least three bytes long, and either the last three are
    [/..] or [/../] occurs. *)
Definition traversal (uri : string) : bool :=
  let len := String.length uri in
  if (3 <=? len)%nat then
    let tail := advance (len - 3) uri in
    (strcmp tail "/.." =? 0) || not_null (strstr uri "/../")
  else false.

Section Lifecycle.
Context {St : Type}.
Variable sendStatusLine : Z -> St -> St.
Variable handleFileRequest : string -> string -> St -> Z * St.

(** [None]: the header loop did not finish in the rounds given to it, which
    [request_returns] shows not to happen. *)
Definition request (webRoot : string) (clntFp : stream) (st : St)
  : option (outcome St) :=
  match fgets 1000 clntFp with
  | None =>
      (* socket closed: status 400, straight to loop_end *)
      Some {| method := Some ""; requestURI := Some ""; httpVersion := Some "";
              statusCode := 400; final := st |}
  | Some (requestLine, clntFp) =>
      let '(method, save) := strtok (c_str requestLine) token_separators in
      let '(requestURI, save) := strtok save token_separators in
      let '(httpVersion, save) := strtok save token_separators in
      let '(extraThingsOnRequestLine, _) := strtok save token_separators in
      let stop code st :=
        Some {| method := method; requestURI := requestURI;
                httpVersion := httpVersion; statusCode := code; final := st |} in
      match method, requestURI, httpVersion, extraThingsOnRequestLine with
      | Some m, Some uri, Some ver, None =>
          if negb (strcmp m "GET" =? 0) then
            stop 501 (sendStatusLine 501 st)
          else if negb (strcmp ver "HTTP/1.0" =? 0)
                  && negb (strcmp ver "HTTP/1.1" =? 0) then
            stop 501 (sendStatusLine 501 st)
          else if negb (Ascii.eqb (deref uri) "/") then
            stop 400 (sendStatusLine 400 st)
          else if traversal uri then
            stop 400 (sendStatusLine 400 st)
          else
            match skip_headers (S (String.length (pending clntFp))) clntFp with
            | Closed => stop 400 st
            | Blank _ =>
                let (code, st) := handleFileRequest webRoot uri st in
                stop code st
            | Unfinished => None
            end
      | _, _, _, _ => stop 501 (sendStatusLine 501 st)
      end
  end.
End Lifecycle.

(** An IPv4 address: a 32-bit number, the first octet in the high byte.
    [inet_ntoa] prints the four octets in decimal. *)
Definition octet (addr : Z) (i : Z) : Z :=
  Z.land (Z.shiftr addr (8 * (3 - i))) 255.

Definition inet_ntoa (addr : Z) : string :=
  show_int (octet addr 0) +:+ "." +:+ show_int (octet addr 1) +:+ "." +:+
  show_int (octet addr 2) +:+ "." +:+ show_int (octet addr 3).

(** An accepted connection: the address of the client, the server's own
    address on that socket, and what the client sends. *)
Record connection := {
  peer_addr : Z;
  local_addr : Z;
  input : stream
}.

(** ** The first program: one child process per connection *)

Module Fork.

(** [struct reqstat] without its semaphore.  Every access to the counters
    but the one in [showstatistics] sits between [sem_wait] and [sem_post];
    the model runs each such section as one step. *)
Record reqstat := {
  num_two : Z;
  num_three : Z;
  num_four : Z;
  num_five : Z
}.

Definition INT_MAX : Z := 2147483647.

(** [int] arithmetic, wrapping around as the machine does. *)
Definition int (z : Z) : Z := (z + 2 ^ 31) mod 2 ^ 32 - 2 ^ 31.

(** The counters after [mmap] and the four assignments in [main]. *)
Definition area_init : reqstat :=
  {| num_two := 0; num_three := 0; num_four := 0; num_five := 0 |}.

Definition add_two (a : reqstat) : reqstat :=
  {| num_two := int (num_two a + 1); num_three := num_three a;
     num_four := num_four a; num_five := num_five a |}.
Definition add_three (a : reqstat) : reqstat :=
  {| num_two := num_two a; num_three := int (num_three a + 1);
     num_four := num_four a; num_five := num_five a |}.
Definition add_four (a : reqstat) : reqstat :=
  {| num_two := num_two a; num_three := num_three a;
     num_four := int (num_four a + 1); num_five := num_five a |}.
Definition add_five (a : reqstat) : reqstat :=
  {| num_two := num_two a; num_three := num_three a;
     num_four := num_four a; num_five := int (num_five a + 1) |}.

(** What a child touches: the buffers handed to [send] on its client
    socket, and the shared counters. *)
Record state := {
  sent : list string;
  area : reqstat
}.

(** What [handleFileRequest] meets besides the file system: the output of
    [ls -al] as [list_directory] finds it in its buffer, and the bytes that
    follow the array [statistics] in the stack frame.  That array has 11
    elements and is initialised with the 11 characters of [/statistics],
    so it holds no terminating zero and [strcmp] reads on behind it. *)
Record machine := {
  disk : filesys;
  ls_al : string -> string;
  behind_statistics : string
}.

(** The critical section of [sendStatusLine]. *)
Definition tally (statusCode : Z) (a : reqstat) : reqstat :=
  let startnum := Z.quot statusCode 100 in
  if startnum =? 2 then add_two a
  else if startnum =? 3 then add_three a
  else if startnum =? 4 then add_four a
  else if startnum =? 5 then add_five a
  else a.

Definition sendStatusLine (statusCode : Z) (st : state) : state :=
  {| sent := Send (sent st) (status_buffer statusCode);
     area := tally statusCode (area st) |}.

Definition showstatistics (statusCode : Z) (st : state) : state :=
  let a := area st in
  let buf := sprintf "HTTP/1.0 %d " [PInt statusCode] in
  let buf := buf +:+ crlf in
  let buf := buf +:+ crlf in
  let body :=
    sprintf ("<html><body>" +:+ lf +:+
             "<h1>Request Statistics</h1>" +:+
             "Number of 2XX : %d " +:+ lf +:+
             "<br>Number of 3XX : %d " +:+ lf +:+
             "<br>Number of 4XX : %d " +:+ lf +:+
             "<br>Number of 5XX : %d " +:+ lf +:+
             "<br>Sum : %d " +:+ lf +:+
             "</body></html>" +:+ lf)
            [PInt (num_two a); PInt (num_three a); PInt (num_four a);
             PInt (num_five a);
             PInt (int (int (int (num_two a + num_three a) + num_four a)
                        + num_five a))] in
  {| sent := Send (sent st) (buf +:+ body); area := a |}.

(** The parent side of [list_directory]: what was read from the pipe goes
    to the client. *)
Definition list_directory (m : machine) (path : string) (st : state) : state :=
  {| sent := Send (sent st) (ls_al m path); area := area st |}.

Definition statistics : string := "/statistics".

Definition handleFileRequest (m : machine) (webRoot requestURI : string)
    (st : state) : Z * state :=
  if strcmp (c_str (statistics +:+ behind_statistics m)) requestURI =? 0 then
    let st := {| sent := sent st; area := add_two (area st) |} in
    (200, showstatistics 200 st)
  else
    let file := resolve webRoot requestURI in
    if is_dir (disk m) file then
      let st := {| sent := sent st; area := add_two (area st) |} in
      (200, list_directory m file st)
    else
      match fopen (disk m) file with
      | None => (404, sendStatusLine 404 st)
      | Some data =>
          let st := sendStatusLine 200 st in
          (200, {| sent := sent st ++ send_file (disk m) data;
                   area := area st |})
      end.

(** The line the child prints to stderr at [loop_end]. *)
Definition log_line (clntAddr pid : Z) (o : outcome state) : string :=
  sprintf ("%s (%d) " +:+ dq +:+ "%s %s %s" +:+ dq +:+ " %d %s" +:+ lf)
          [PStr (Some (inet_ntoa clntAddr)); PInt pid;
           PStr (method o); PStr (requestURI o); PStr (httpVersion o);
           PInt (statusCode o); PStr (getReasonPhrase (statusCode o))].

(** The child branch of [main]: one request on the connection that
    [accept] returned, whose [clntAddr] is the client's address.  The
    result is the outcome and the log line. *)
Definition main_child (m : machine) (webRoot : string) (pid : Z)
    (c : connection) (a : reqstat) : option (outcome state * string) :=
  match request sendStatusLine (handleFileRequest m) webRoot (input c)
                {| sent := []; area := a |} with
  | Some o => Some (o, log_line (peer_addr c) pid o)
  | None => None
  end.

(** Children one after the other on the shared counters, each with its
    process id and its own connection: their outcomes, and the counters after
    the last. *)
Fixpoint children (m : machine) (webRoot : string)
    (cs : list (Z * connection)) (a : reqstat)
  : option (list (outcome state) * reqstat) :=
  match cs with
  | [] => Some ([], a)
  | (pid, c) :: cs' =>
      match main_child m webRoot pid c a with
      | None => None
      | Some (o, _) =>
          match children m webRoot cs' (area (final o)) with
          | None => None
          | Some (os, a') => Some (o :: os, a')
          end
      end
  end.

End Fork.

(** ** The second program: a pool of worker threads behind a queue *)

Module Pool.

Definition sendStatusLine (statusCode : Z) (sent : list string) : list string :=
  Send sent (status_buffer statusCode).

Definition handleFileRequest (fs : filesys) (webRoot requestURI : string)
    (sent : list string) : Z * list string :=
  let file := resolve webRoot requestURI in
  if is_dir fs file then (403, sendStatusLine 403 sent)
  else
    match fopen fs file with
    | None => (404, sendStatusLine 404 sent)
    | Some data => (200, sendStatusLine 200 sent ++ send_file fs data)
    end.

Definition log_line (clntAddr : Z) (o : outcome (list string)) : string :=
  sprintf ("%s " +:+ dq +:+ "%s %s %s" +:+ dq +:+ " %d %s" +:+ lf)
          [PStr (Some (inet_ntoa clntAddr));
           PStr (method o); PStr (requestURI o); PStr (httpVersion o);
           PInt (statusCode o); PStr (getReasonPhrase (statusCode o))].

(** One round of the loop of [thr_worker], after [queue_get] has returned
    the socket of [c].  [clntAddr] is filled in by [getsockname], which
    reports the address the socket is bound to on the server's side.
    [strtok] keeps its position in one static variable for all threads; the
    model follows a worker whose four calls are not interleaved with those
    of another. *)
Definition thr_worker (fs : filesys) (webRoot : string) (c : connection)
  : option (outcome (list string) * string) :=
  match request sendStatusLine (handleFileRequest fs) webRoot (input c) [] with
  | Some o => Some (o, log_line (local_addr c) o)
  | None => None
  end.

(** *** The blocking queue

    Messages live in a heap of [malloc]ed nodes.  The mutex makes each of
    [queue_put] and [queue_get] one step; a [queue_get] that finds the
    queue empty waits, which a run of the model shows as [Blocks]. *)

Definition loc := positive.

Record message := {
  sock : Z;
  next : option loc
}.

Record queue := {
  q_first : option loc;
  q_last : option loc;
  q_length : Z            (* unsigned int *)
}.

Record memory := {
  heap : gmap loc message;
  q : queue
}.

Definition UINT_MAX : Z := 4294967295.

(** [unsigned int] arithmetic. *)
Definition uint (z : Z) : Z := z mod 2 ^ 32.

Definition queue_init (mem : memory) : memory :=
  {| heap := heap mem;
     q := {| q_first := None; q_last := None; q_length := 0 |} |}.

Inductive got :=
| Returns (sock : Z) (mem : memory)
| Blocks
| Faults.

Section Queue.
(** [malloc] returns an address that is not in use. *)
Variable malloc : gmap loc message -> loc.

(** [None]: the store through [q->last] hits NULL or freed memory. *)
Definition queue_put (mem : memory) (clntSock : Z) : option memory :=
  let pmsg := malloc (heap mem) in
  let h := <[pmsg := {| sock := clntSock; next := None |}]> (heap mem) in
  let len := uint (q_length (q mem) + 1) in
  if q_length (q mem) =? 0 then
    Some {| heap := h;
            q := {| q_first := Some pmsg; q_last := Some pmsg;
                    q_length := len |} |}
  else
    match q_last (q mem) with
    | None => None
    | Some l =>
        match h !! l with
        | None => None
        | Some msg =>
            Some {| heap := <[l := {| sock := msg.(sock); next := Some pmsg |}]> h;
                    q := {| q_first := q_first (q mem); q_last := Some pmsg;
                            q_length := len |} |}
        end
    end.

Definition queue_get (mem : memory) : got :=
  if q_length (q mem) =? 0 then Blocks
  else
    match q_first (q mem) with
    | None => Faults
    | Some pmsg =>
        match heap mem !! pmsg with
        | None => Faults
        | Some msg =>
            Returns msg.(sock)
              {| heap := delete pmsg (heap mem);
                 q := {| q_first := msg.(next);
                         q_last := if q_length (q mem) =? 1 then None
                                   else q_last (q mem);
                         q_length := uint (q_length (q mem) - 1) |} |}
        end
    end.

Inductive op :=
| Put (sock : Z)
| Get.

(** A history of calls in the order the mutex admits them, with the
    sockets the [queue_get]s returned.  [None]: a [queue_get] would have
    to wait at its turn, or a call faults. *)
Fixpoint run (ops : list op) (mem : memory) : option (list Z * memory) :=
  match ops with
  | [] => Some ([], mem)
  | Put s :: ops' =>
      match queue_put mem s with
      | Some mem' => run ops' mem'
      | None => None
      end
  | Get :: ops' =>
      match queue_get mem with
      | Returns s mem' =>
          match run ops' mem' with
          | Some (out, mem'') => Some (s :: out, mem'')
          | None => None
          end
      | _ => None
      end
  end.
End Queue.

(** The sockets put by a history, in order. *)
Fixpoint puts (ops : list op) : list Z :=
  match ops with
  | [] => []
  | Put s :: ops' => s :: puts ops'
  | Get :: ops' => puts ops'
  end.

Fixpoint gets_of (ops : list op) : nat :=
  match ops with
  | [] => O
  | Put _ :: ops' => gets_of ops'
  | Get :: ops' => S (gets_of ops')
  end.

(** A history that can happen with [n] sockets waiting: no [Get] at its
    turn finds the queue empty, and no [Put] finds [UINT_MAX] sockets
    waiting (they are open descriptors, of which a process has far
    fewer). *)
Fixpoint admissible (n : Z) (ops : list op) : bool :=
  match ops with
  | [] => true
  | Put _ :: ops' => (n <? UINT_MAX) && admissible (n + 1) ops'
  | Get :: ops' => (0 <? n) && admissible (n - 1) ops'
  end.

(** The nodes met from [p] to the NULL that ends the list. *)
Fixpoint path (h : gmap loc message) (p : option loc) (ls : list loc) : Prop :=
  match ls with
  | [] => p = None
  | l :: ls' => p = Some l /\ exists msg, h !! l = Some msg /\ path h msg.(next) ls'
  end.

Definition sock_at (h : gmap loc message) (l : loc) : Z :=
  match h !! l with
  | Some msg => msg.(sock)
  | None => 0
  end.

(** The list from [first] is [ls]: it has [length] nodes, [length] fits an
    unsigned int, and [last] points to the final node. *)
Definition chain (mem : memory) (ls : list loc) : Prop :=
  path (heap mem) (q_first (q mem)) ls /\
  q_length (q mem) = Z.of_nat (List.length ls) /\
  q_length (q mem) <= UINT_MAX /\
  q_last (q mem) = last ls.

(** The structural invariant: [length] is 0 exactly when both pointers are
    NULL, and the list from [first] has exactly [length] nodes and ends at
    [last]. *)
Definition queue_inv (mem : memory) : Prop :=
  (q_length (q mem) = 0 <-> q_first (q mem) = None /\ q_last (q mem) = None) /\
  exists ls : list loc, chain mem ls.

(** The queue holds exactly the sockets [socks], oldest first. *)
Definition holds (mem : memory) (socks : list Z) : Prop :=
  exists ls : list loc,
    chain mem ls /\ map (sock_at (heap mem)) ls = socks.

(** *** The listening sockets of [main]

    The array [servSocks] has 32 elements, all set to -1 by [memset].  The
    loop runs over the port arguments with [i] counting from 1, dies when
    [i] reaches the size of the array, and stores the new socket at
    [i - 1].  [listen_on] stands for [createServerSocket(atoi(argv[i]))].
    [None]: [main] died with "Too many listening sockets". *)
Definition servSocks_init : list Z := replicate 32 (-1).

Fixpoint create_listeners (listen_on : string -> Z) (i : nat)
    (ports : list string) (servSocks : list Z) : option (list Z) :=
  match ports with
  | [] => Some servSocks
  | port :: ports' =>
      if (32 <=? i)%nat then None
      else create_listeners listen_on (S i) ports'
             (<[(i - 1)%nat := listen_on port]> servSocks)
  end.

Definition listeners (listen_on : string -> Z) (ports : list string)
  : option (list Z) :=
  create_listeners listen_on 1 ports servSocks_init.

(** The queue owns the nodes [ls]: outside of them the heap is [h0], and
    [h0] has nothing at their addresses. *)
Definition owns (mem : memory) (ls : list loc) (h0 : gmap loc message) : Prop :=
  chain mem ls /\
  (forall l, l ∉ ls -> heap mem !! l = h0 !! l) /\
  (forall l, l ∈ ls -> h0 !! l = None).

(** *** [queue_destroy] and the accept loop of [main] *)

Inductive drained :=
| Drained (mem : memory)
| DrainFaults          (* [q->first->next] read through NULL or freed memory *)
| DrainUnfinished.     (* the model ran out of rounds *)

(** The loop of [queue_destroy]: while [length] is not 0, unlink the first
    message, count down and free it.  [last] is not touched. *)
Fixpoint drain (fuel : nat) (mem : memory) : drained :=
  if q_length (q mem) =? 0 then Drained mem
  else
    match fuel with
    | O => DrainUnfinished
    | S fuel' =>
        match q_first (q mem) with
        | None => DrainFaults
        | Some msg =>
            match heap mem !! msg with
            | None => DrainFaults
            | Some m =>
                drain fuel'
                  {| heap := delete msg (heap mem);
                     q := {| q_first := m.(next); q_last := q_last (q mem);
                             q_length := uint (q_length (q mem) - 1) |} |}
            end
        end
    end.

(** [queue_destroy] up to the destruction of the mutex and the condition
    variable: the loop, then [q->last = NULL].  The counter goes down by one
    per round, so [length] rounds are enough. *)
Definition queue_destroy (mem : memory) : drained :=
  match drain (Z.to_nat (q_length (q mem))) mem with
  | Drained mem' =>
      Drained {| heap := heap mem';
                 q := {| q_first := q_first (q mem'); q_last := None;
                         q_length := q_length (q mem') |} |}
  | r => r
  end.

(** The [for] loop of [main] after [select] has returned, over the
    descriptors [fds] still to be looked at: on each one that is set in
    [readfds], [accept] one connection and put its socket into the queue.
    [accept] gives the socket returned on a listening descriptor in this
    pass.  [None]: [accept] returned a negative value and [main] died, or
    [queue_put] faulted. *)
Fixpoint accept_ready (malloc : gmap loc message -> loc) (accept : Z -> Z)
    (readfds : Z -> bool) (fds : list Z) (mem : memory) : option memory :=
  match fds with
  | [] => Some mem
  | validfd :: fds' =>
      if readfds validfd then
        let clntSock := accept validfd in
        if clntSock <? 0 then None
        else
          match queue_put malloc mem clntSock with
          | Some mem' => accept_ready malloc accept readfds fds' mem'
          | None => None
          end
      else accept_ready malloc accept readfds fds' mem
  end.

(** The descriptors the loop looks at: 1, 2, ..., [nfds]. *)
Definition validfds (nfds : nat) : list Z := map Z.of_nat (seq 1 nfds).

Definition main_pass (malloc : gmap loc message -> loc) (accept : Z -> Z)
    (readfds : Z -> bool) (nfds : nat) (mem : memory) : option memory :=
  accept_ready malloc accept readfds (validfds nfds) mem.

End Pool.

(** ** What the specification writes down, and sample inputs *)

(** The response to a request that fails, as the specification gives it: the
    status line, an empty line, and the HTML page that names code and
    reason. *)
Definition error_page (code reason : string) : string :=
  "HTTP/1.0 " +:+ code +:+ " " +:+ reason +:+ crlf +:+ crlf +:+
  "<html><body>" +:+ lf +:+
  "<h1>" +:+ code +:+ " " +:+ reason +:+ "</h1>" +:+ lf +:+
  "</body></html>" +:+ lf.

(** The log line of the specification, without the line feed that ends it:
    address, quoted request line, status, reason. *)
Definition log_format (addr method uri version status reason : string) : string :=
  addr +:+ " " +:+ dq +:+ method +:+ " " +:+ uri +:+ " " +:+ version +:+ dq +:+
  " " +:+ status +:+ " " +:+ reason.

(** The line the child process prints: the process id follows the address. *)
Definition log_format_pid (addr pid method uri version status reason : string)
  : string :=
  addr +:+ " (" +:+ pid +:+ ") " +:+ dq +:+ method +:+ " " +:+ uri +:+ " " +:+
  version +:+ dq +:+ " " +:+ status +:+ " " +:+ reason.

(** Whether a lifecycle handed anything to [send]. *)
Definition responded (o : outcome Fork.state) : bool :=
  match Fork.sent (final o) with
  | [] => false
  | _ :: _ => true
  end.

(** How many of the lifecycles [os] ended with a status whose hundreds digit
    is [k]. *)
Fixpoint ended_in (k : Z) (os : list (outcome Fork.state)) : Z :=
  match os with
  | [] => 0
  | o :: os' =>
      (if Z.quot (statusCode o) 100 =? k then 1 else 0) + ended_in k os'
  end.

(** The same count over the lifecycles that sent a response. *)
Fixpoint answered_in (k : Z) (os : list (outcome Fork.state)) : Z :=
  match os with
  | [] => 0
  | o :: os' =>
      (if responded o && (Z.quot (statusCode o) 100 =? k) then 1 else 0)
      + answered_in k os'
  end.

Fixpoint answered (os : list (outcome Fork.state)) : Z :=
  match os with
  | [] => 0
  | o :: os' => (if responded o then 1 else 0) + answered os'
  end.

(** An empty document root: nothing is a directory, nothing opens. *)
Definition no_files : filesys :=
  {| is_dir := fun _ => false; fopen := fun _ => None; send_ok := fun _ => true |}.

(** A machine on which a zero byte follows the array [statistics]. *)
Definition plain_machine : Fork.machine :=
  {| Fork.disk := no_files;
     Fork.ls_al := fun _ => EmptyString;
     Fork.behind_statistics := String NUL EmptyString |}.

(** A machine on which the byte [X] and then a zero byte follow it. *)
Definition trailing_machine : Fork.machine :=
  {| Fork.disk := no_files;
     Fork.ls_al := fun _ => EmptyString;
     Fork.behind_statistics := String "X" (String NUL EmptyString) |}.

(** The client 10.0.0.7 connected to the server at 192.168.0.1, sending
    [bytes] and then closing its side. *)
Definition client (bytes : string) : connection :=
  {| peer_addr := 167772167; local_addr := 3232235521;
     input := {| pending := bytes; broken := false |} |}.

(** Counters that record three responses of class 2xx and one of class 4xx. *)
Definition three_and_one : Fork.reqstat :=
  {| Fork.num_two := 3; Fork.num_three := 0; Fork.num_four := 1; Fork.num_five := 0 |}.

(** Memory before [queue_init]: no message allocated, the fields of the
    queue not yet set. *)
Definition fresh_memory : Pool.memory :=
  {| Pool.heap := ∅;
     Pool.q := {| Pool.q_first := Some 5%positive; Pool.q_last := None;
                  Pool.q_length := 7 |} |}.

(** [malloc] as the least address not in use. *)
Definition first_free (h : gmap Pool.loc Pool.message) : Pool.loc :=
  fresh (dom h).

(** A well-formed request for [uri] on the input [clntFp]: a request line of
    the three tokens GET, [uri] and a supported version, where [uri] begins
    with a slash, does not contain [/../] and does not end with [/..], and
    after it header lines up to an empty line. *)
Definition asks_for (clntFp : stream) (uri : string) : Prop :=
  exists (requestLine ver : string) (rest rest' : stream),
    fgets 1000 clntFp = Some (requestLine, rest) /\
    fields (c_str requestLine) = ["GET"; uri; ver] /\
    (ver = "HTTP/1.0" \/ ver = "HTTP/1.1") /\
    (exists r, uri = "/" +:+ r) /\
    ~ contains uri "/../" /\
    ~ ends_with uri "/.." /\
    skip_headers (S (String.length (pending rest))) rest = Blank rest'.

(** The response that carries the counters [two], [three], [four], [five]. *)
Definition statistics_page (two three four five : Z) : string :=
  "HTTP/1.0 200 " +:+ crlf +:+ crlf +:+
  "<html><body>" +:+ lf +:+
  "<h1>Request Statistics</h1>" +:+
  "Number of 2XX : " +:+ show_int two +:+ " " +:+ lf +:+
  "<br>Number of 3XX : " +:+ show_int three +:+ " " +:+ lf +:+
  "<br>Number of 4XX : " +:+ show_int four +:+ " " +:+ lf +:+
  "<br>Number of 5XX : " +:+ show_int five +:+ " " +:+ lf +:+
  "<br>Sum : " +:+ show_int (two + three + four + five) +:+ " " +:+ lf +:+
  "</body></html>" +:+ lf.

(** The status line of a 200 response and the empty line after it. *)
Definition ok_head : string := "HTTP/1.0 200 OK" +:+ crlf +:+ crlf.

(** A document root with one file, [/srv/index.html], and one directory,
    [/srv/docs]. *)
Definition one_file : filesys :=
  {| is_dir := fun path => String.eqb path "/srv/docs";
     fopen := fun path =>
       if String.eqb path "/srv/index.html" then Some "<p>hello</p>"%string else None;
     send_ok := fun _ => true |}.

Definition one_file_machine : Fork.machine :=
  {| Fork.disk := one_file;
     Fork.ls_al := fun _ => "total 0"%string;
     Fork.behind_statistics := String NUL EmptyString |}.

(** A pass of the accept loop in which the listening descriptors 3 and 4 are
    ready, and [accept] returns descriptor 13 on the first and 14 on the
    second. *)
Definition ready_3_4 (fd : Z) : bool := (fd =? 3) || (fd =? 4).
Definition accept_plus_10 (fd : Z) : Z := fd + 10.

(** A pass in which [accept] fails on descriptor 4. *)
Definition accept_fails_on_4 (fd : Z) : Z := if fd =? 4 then -1 else fd + 10.

(** The memory after [queue_init] and two calls of [queue_put], with the
    sockets 4 and 9 waiting. *)
Definition two_waiting : Pool.memory :=
  match Pool.run first_free [Pool.Put 4; Pool.Put 9] (Pool.queue_init fresh_memory) with
  | Some (_, mem) => mem
  | None => fresh_memory
  end.

(** A stand-in for the creation of a listening socket, for samples: the
    descriptor is the length of the port argument. *)
Definition listen_by_length (port : string) : Z := Z.of_nat (String.length port).

(** * Properties *)

(** ** C strings *)

Lemma uchar_inj (c d : ascii) : uchar c = uchar d -> c = d.
Proof.
  unfold uchar. intros H. apply Nat2Z.inj in H.
  rewrite <- (ascii_nat_embedding c), <- (ascii_nat_embedding d).
  now rewrite H.
Qed.

Lemma uchar_zero (c : ascii) : uchar c = 0 -> c = NUL.
Proof. intros H. apply uchar_inj. exact H. Qed.

(** [strcmp] returns 0 exactly on buffers that hold the same C string. *)
Lemma strcmp_zero (a b : string) : strcmp a b = 0 <-> c_str a = c_str b.
Proof.
  revert b. induction a as [|c a IH]; intros [|d b]; simpl.
  - tauto.
  - destruct (Ascii.eqb_spec d NUL) as [->|Hd]; [tauto|].
    split; [|discriminate]. intros H. destruct Hd. apply uchar_zero. lia.
  - destruct (Ascii.eqb_spec c NUL) as [->|Hc]; [tauto|].
    split; [|discriminate]. intros H. destruct Hc. now apply uchar_zero.
  - destruct (Ascii.eqb_spec c d) as [->|Hcd].
    + destruct (Ascii.eqb_spec d NUL) as [->|Hd]; [tauto|].
      rewrite IH. split; [congruence|]. now intros [= ->].
    + split.
      * intros H. destruct Hcd. apply uchar_inj. lia.
      * destruct (Ascii.eqb_spec c NUL) as [->|Hc];
          destruct (Ascii.eqb_spec d NUL) as [->|Hd]; try discriminate.
        -- now destruct Hcd.
        -- intros [= -> _]. now destruct Hcd.
Qed.

Lemma c_str_nul_free (s : string) : nul_free (c_str s).
Proof.
  unfold nul_free. induction s as [|c s IH]; simpl; [reflexivity|].
  destruct (Ascii.eqb_spec c NUL) as [->|Hc]; [reflexivity|].
  simpl. destruct (Ascii.eqb_spec c NUL); [contradiction|]. now rewrite IH.
Qed.

Lemma nul_free_tail (c : ascii) (s : string) : nul_free (String c s) -> nul_free s.
Proof.
  unfold nul_free. simpl. destruct (Ascii.eqb c NUL); [discriminate|].
  now intros [= ->].
Qed.

Lemma nul_free_cons (c : ascii) (s : string) :
  nul_free (String c s) -> nul_free (String c EmptyString).
Proof.
  unfold nul_free. simpl. destruct (Ascii.eqb c NUL); [discriminate|]. reflexivity.
Qed.

Lemma strcmp_nul_free (a b : string) :
  nul_free a -> nul_free b -> (strcmp a b =? 0) = bool_decide (a = b).
Proof.
  unfold nul_free. intros Ha Hb.
  destruct (Z.eqb_spec (strcmp a b) 0) as [H|H]; rewrite strcmp_zero, Ha, Hb in H.
  - now rewrite bool_decide_eq_true_2.
  - now rewrite bool_decide_eq_false_2.
Qed.

Lemma length_append (a b : string) :
  String.length (a +:+ b) = (String.length a + String.length b)%nat.
Proof. induction a as [|c a IH]; simpl; [reflexivity|]. now rewrite IH. Qed.

Lemma append_assoc (a b c : string) : (a +:+ b) +:+ c = a +:+ (b +:+ c).
Proof.
  induction a as [|x a IH]; [reflexivity|].
  change (String x ((a +:+ b) +:+ c) = String x (a +:+ b +:+ c)).
  now rewrite IH.
Qed.

Lemma advance_append (a b : string) : advance (String.length a) (a +:+ b) = b.
Proof. induction a as [|c a IH]; simpl; [now destruct b|exact IH]. Qed.

Lemma prefix_append (s b : string) : String.prefix s (s +:+ b) = true.
Proof.
  induction s as [|c s IH]; simpl; [now destruct b|].
  destruct (ascii_dec c c); [exact IH|contradiction].
Qed.

Lemma strstr_here (t s : string) :
  String.prefix s t = true -> not_null (strstr t s) = true.
Proof. intros H. destruct t; cbn [strstr]; rewrite H; reflexivity. Qed.

(** [strstr] finds every occurrence. *)
Lemma strstr_contains (t s : string) : contains t s -> not_null (strstr t s) = true.
Proof.
  intros (a & b & ->). induction a as [|c a IH].
  - apply strstr_here. change (EmptyString +:+ s +:+ b) with (s +:+ b).
    apply prefix_append.
  - change (String c a +:+ s +:+ b) with (String c (a +:+ s +:+ b)).
    cbn [strstr]. destruct (String.prefix s (String c (a +:+ s +:+ b))); [reflexivity|exact IH].
Qed.

(** The test in the request code fires on every URI that contains [/../] or
    ends with [/..]. *)
Lemma traversal_catches (uri : string) :
  contains uri "/../" \/ ends_with uri "/.." -> traversal uri = true.
Proof.
  intros H. unfold traversal.
  assert (Hlen : (3 <= String.length uri)%nat).
  { destruct H as [(a & b & ->)|(a & ->)]; rewrite !length_append; simpl; lia. }
  destruct (Nat.leb_spec 3 (String.length uri)) as [_|]; [|lia].
  destruct H as [H|(a & ->)].
  - rewrite (strstr_contains _ _ H). apply orb_true_r.
  - rewrite length_append. simpl String.length.
    replace (String.length a + 3 - 3)%nat with (String.length a) by lia.
    rewrite advance_append. reflexivity.
Qed.

(** ** Tokens *)

Lemma nul_free_String (c : ascii) (s : string) :
  nul_free (String c s) <-> c <> NUL /\ nul_free s.
Proof.
  unfold nul_free. simpl. destruct (Ascii.eqb_spec c NUL) as [->|Hc].
  - split; [discriminate|]. now intros [[] _].
  - split.
    + now intros [= ->].
    + now intros [_ ->].
Qed.

Lemma fields_nul_free (s : string) : nul_free s -> Forall nul_free (fields s).
Proof.
  induction s as [|c s IH]; intros H; [constructor|].
  apply nul_free_String in H as [Hc Hs]. specialize (IH Hs).
  cbn [fields]. destruct (is_delim token_separators c); [exact IH|].
  assert (H1 : nul_free (String c EmptyString)).
  { apply nul_free_String. split; [exact Hc|reflexivity]. }
  destruct s as [|d s']; [now repeat constructor|].
  destruct (is_delim token_separators d); [now constructor|].
  destruct (fields (String d s')) as [|w ws]; [now repeat constructor|].
  inversion IH as [|? ? Hw Hws]; subst.
  constructor; [|exact Hws]. apply nul_free_String. now split.
Qed.

Lemma fields_step (c : ascii) (r : string) :
  fields (String c r) =
    if is_delim token_separators c then fields r
    else match r with
         | EmptyString => [String c EmptyString]
         | String d _ =>
             if is_delim token_separators d then String c EmptyString :: fields r
             else match fields r with
                  | w :: ws => String c w :: ws
                  | [] => [String c EmptyString]
                  end
         end.
Proof. reflexivity. Qed.

Lemma take_token_step (c : ascii) (r : string) :
  take_token token_separators (String c r) =
    if is_delim token_separators c then (EmptyString, r)
    else let (tok, rest) := take_token token_separators r in (String c tok, rest).
Proof. reflexivity. Qed.

(** A token that starts at a byte which is no delimiter is the first field,
    and the fields after it are those of the position [strtok] saves. *)
Lemma take_token_fields (s : string) (c : ascii) :
  is_delim token_separators c = false ->
  fields (String c s) =
    fst (take_token token_separators (String c s))
      :: fields (snd (take_token token_separators (String c s))).
Proof.
  revert c. induction s as [|d s IH]; intros c Hc.
  - rewrite fields_step, take_token_step, Hc. reflexivity.
  - rewrite (fields_step c), (take_token_step c), Hc.
    destruct (is_delim token_separators d) eqn:Hd.
    + rewrite take_token_step, Hd, fields_step, Hd. reflexivity.
    + rewrite (IH d Hd).
      destruct (take_token token_separators (String d s)) as [tok rest].
      reflexivity.
Qed.

(** [strtok] hands out the fields of a line one by one. *)
Lemma strtok_fields (s : string) :
  exists r, strtok s token_separators = (head (fields s), r) /\
            fields r = tail (fields s).
Proof.
  induction s as [|c s IH].
  - exists EmptyString. split; reflexivity.
  - destruct (is_delim token_separators c) eqn:Hc.
    + destruct IH as (r & Hr & Hf). exists r. split.
      * rewrite fields_step, Hc. unfold strtok in *. cbn [skip_delims].
        rewrite Hc. exact Hr.
      * rewrite fields_step, Hc. exact Hf.
    + exists (snd (take_token token_separators (String c s))). split.
      * unfold strtok. cbn [skip_delims]. rewrite Hc.
        rewrite (take_token_fields s c Hc).
        destruct (take_token token_separators (String c s)). reflexivity.
      * rewrite (take_token_fields s c Hc). reflexivity.
Qed.

Lemma strtok4 (s : string) :
  exists r1 r2 r3 r4,
    strtok s token_separators = (fields s !! 0%nat, r1) /\
    strtok r1 token_separators = (fields s !! 1%nat, r2) /\
    strtok r2 token_separators = (fields s !! 2%nat, r3) /\
    strtok r3 token_separators = (fields s !! 3%nat, r4).
Proof.
  destruct (strtok_fields s) as (r1 & H1 & F1).
  destruct (strtok_fields r1) as (r2 & H2 & F2).
  destruct (strtok_fields r2) as (r3 & H3 & F3).
  destruct (strtok_fields r3) as (r4 & H4 & F4).
  exists r1, r2, r3, r4.
  rewrite H1, H2, H3, H4, F3, F2, F1.
  destruct (fields s) as [|? [|? [|? [|? ?]]]]; repeat split; reflexivity.
Qed.

(** ** Lines *)

Lemma gets_length (room : nat) (s l rest : string) (out : bool) :
  gets room s = (l, rest, out) ->
  String.length s = (String.length l + String.length rest)%nat.
Proof.
  revert s l rest out. induction room as [|room IH]; intros s l rest out.
  - simpl. now intros [= <- <- <-].
  - destruct s as [|c s]; simpl.
    + now intros [= <- <- <-].
    + destruct (Ascii.eqb c LF).
      * now intros [= <- <- <-].
      * destruct (gets room s) as [[l' rest'] out'] eqn:E.
        intros [= <- <- <-]. simpl. f_equal. exact (IH _ _ _ _ E).
Qed.

Lemma gets_some (room : nat) (s l rest : string) :
  gets (S room) s = (l, rest, false) -> l <> EmptyString.
Proof.
  destruct s as [|c s]; simpl; [discriminate|].
  destruct (Ascii.eqb c LF).
  - now intros [= <- _].
  - destruct (gets room s) as [[l' rest'] out']. now intros [= <- _ _].
Qed.

(** Every line that [fgets] returns takes at least one byte off the input. *)
Lemma fgets_shrinks (size : nat) (fp fp' : stream) (line : string) :
  fgets (S (S size)) fp = Some (line, fp') ->
  (String.length (pending fp') < String.length (pending fp))%nat.
Proof.
  unfold fgets. replace (S (S size) - 1)%nat with (S size) by lia.
  destruct (gets (S size) (pending fp)) as [[l rest] out] eqn:E.
  pose proof (gets_length _ _ _ _ _ E) as Hlen.
  destruct out.
  - destruct (broken fp); [discriminate|]. destruct l; [discriminate|].
    simpl. intros [= <- <-]. simpl in *. lia.
  - apply gets_some in E. simpl. intros [= <- <-].
    destruct l; [contradiction|]. simpl in *. lia.
Qed.

(** The header loop ends within the rounds [request] gives it. *)
Lemma skip_headers_finishes (fuel : nat) (fp : stream) :
  (String.length (pending fp) < fuel)%nat -> skip_headers fuel fp <> Unfinished.
Proof.
  revert fp. induction fuel as [|fuel IH]; intros fp Hlt; [lia|].
  cbn [skip_headers]. destruct (fgets 1000 fp) as [[line fp']|] eqn:E; [|discriminate].
  destruct (_ || _); [discriminate|].
  apply IH. apply fgets_shrinks in E. lia.
Qed.

(** ** The request lifecycle *)

Section Lifecycle_facts.
Context {St : Type}.
Variable sendStatusLine : Z -> St -> St.
Variable handleFileRequest : string -> string -> St -> Z * St.

(** When the request line cannot be read the lifecycle goes straight to
    [loop_end]: status 400, the three strings empty, the state untouched. *)
Lemma request_unread (webRoot : string) (clntFp : stream) (st : St) :
  fgets 1000 clntFp = None ->
  request sendStatusLine handleFileRequest webRoot clntFp st =
    Some {| method := Some ""; requestURI := Some ""; httpVersion := Some "";
            statusCode := 400; final := st |}.
Proof. intros H. unfold request. rewrite H. reflexivity. Qed.

(** The lifecycle after the request line was read, by the fields of that
    line. *)
Lemma request_by_fields (webRoot : string) (clntFp rest : stream)
    (requestLine : string) (st : St) :
  fgets 1000 clntFp = Some (requestLine, rest) ->
  request sendStatusLine handleFileRequest webRoot clntFp st =
    let ws := fields (c_str requestLine) in
    let stop code st :=
      Some {| method := ws !! 0%nat; requestURI := ws !! 1%nat;
              httpVersion := ws !! 2%nat; statusCode := code; final := st |} in
    match ws with
    | [m; uri; ver] =>
        if negb (bool_decide (m = "GET")) then stop 501 (sendStatusLine 501 st)
        else if negb (bool_decide (ver = "HTTP/1.0"))
                && negb (bool_decide (ver = "HTTP/1.1")) then
          stop 501 (sendStatusLine 501 st)
        else if negb (Ascii.eqb (deref uri) "/") then
          stop 400 (sendStatusLine 400 st)
        else if traversal uri then stop 400 (sendStatusLine 400 st)
        else
          match skip_headers (S (String.length (pending rest))) rest with
          | Closed => stop 400 st
          | Blank _ =>
              let (code, st) := handleFileRequest webRoot uri st in stop code st
          | Unfinished => None
          end
    | _ => stop 501 (sendStatusLine 501 st)
    end.
Proof.
  intros H. unfold request. rewrite H.
  pose proof (fields_nul_free _ (c_str_nul_free requestLine)) as Hnf.
  destruct (strtok4 (c_str requestLine)) as (r1 & r2 & r3 & r4 & H1 & H2 & H3 & H4).
  rewrite H1, H2, H3, H4. cbv zeta.
  destruct (fields (c_str requestLine)) as [|m [|uri [|ver [|extra ws]]]];
    try reflexivity.
  cbn [lookup list_lookup].
  inversion Hnf as [|? ? Hm Hnf1]; subst.
  inversion Hnf1 as [|? ? Huri Hnf2]; subst.
  inversion Hnf2 as [|? ? Hver _]; subst.
  rewrite !strcmp_nul_free by (assumption || reflexivity).
  reflexivity.
Qed.

(** The lifecycle always reaches [loop_end]. *)
Lemma request_returns (webRoot : string) (clntFp : stream) (st : St) :
  exists o, request sendStatusLine handleFileRequest webRoot clntFp st = Some o.
Proof.
  destruct (fgets 1000 clntFp) as [[line rest]|] eqn:E.
  - rewrite (request_by_fields _ _ _ _ _ E). cbv zeta.
    destruct (fields (c_str line)) as [|m [|uri [|ver [|extra ws]]]]; eauto.
    repeat (destruct (negb _ && negb _) || destruct (negb _)
            || destruct (traversal _); eauto).
    pose proof (skip_headers_finishes (S (String.length (pending rest))) rest) as Hf.
    destruct (skip_headers _ rest); eauto.
    + destruct (handleFileRequest webRoot uri st). eauto.
    + destruct Hf; [lia|reflexivity].
  - rewrite (request_unread _ _ _ E). eauto.
Qed.

(** A request line that is not [GET], a URI and one of the two versions is
    answered with 501. *)
Lemma request_rejects (webRoot : string) (clntFp rest : stream)
    (requestLine : string) (st : St) :
  fgets 1000 clntFp = Some (requestLine, rest) ->
  List.length (fields (c_str requestLine)) <> 3%nat \/
  fields (c_str requestLine) !! 0%nat <> Some "GET" \/
  (fields (c_str requestLine) !! 2%nat <> Some "HTTP/1.0" /\
   fields (c_str requestLine) !! 2%nat <> Some "HTTP/1.1") ->
  exists o, request sendStatusLine handleFileRequest webRoot clntFp st = Some o /\
            statusCode o = 501 /\ final o = sendStatusLine 501 st.
Proof.
  intros E H. rewrite (request_by_fields _ _ _ _ _ E). cbv zeta.
  destruct (fields (c_str requestLine)) as [|m [|uri [|ver [|extra ws]]]];
    try (eexists; split; [reflexivity|split; reflexivity]).
  cbn in H. case_bool_decide as Hm; cbn [negb].
  - subst m. destruct H as [H|[H|[H0 H1]]]; try congruence.
    rewrite !bool_decide_eq_false_2 by congruence. cbn.
    eexists; split; [reflexivity|split; reflexivity].
  - eexists; split; [reflexivity|split; reflexivity].
Qed.

(** A [GET] request in a supported version whose URI the traversal test
    catches is answered with 400, before any header is read and before the
    file system is looked at. *)
Lemma request_traversal (webRoot : string) (clntFp rest : stream)
    (requestLine uri ver : string) (st : St) :
  fgets 1000 clntFp = Some (requestLine, rest) ->
  fields (c_str requestLine) = ["GET"; uri; ver] ->
  ver = "HTTP/1.0" \/ ver = "HTTP/1.1" ->
  traversal uri = true ->
  request sendStatusLine handleFileRequest webRoot clntFp st =
    Some {| method := Some "GET"; requestURI := Some uri; httpVersion := Some ver;
            statusCode := 400; final := sendStatusLine 400 st |}.
Proof.
  intros E F Hver Htr. rewrite (request_by_fields _ _ _ _ _ E), F. cbv zeta.
  cbn [lookup list_lookup]. rewrite Htr.
  destruct Hver as [-> | ->]; cbn; destruct (Ascii.eqb (deref uri) "/"); reflexivity.
Qed.

(** A well-formed [GET] whose headers end in an empty line reaches
    [handleFileRequest]. *)
Lemma request_accepts (webRoot : string) (clntFp rest rest' : stream)
    (requestLine uri ver : string) (st : St) :
  fgets 1000 clntFp = Some (requestLine, rest) ->
  fields (c_str requestLine) = ["GET"; uri; ver] ->
  ver = "HTTP/1.0" \/ ver = "HTTP/1.1" ->
  deref uri = "/"%char ->
  traversal uri = false ->
  skip_headers (S (String.length (pending rest))) rest = Blank rest' ->
  request sendStatusLine handleFileRequest webRoot clntFp st =
    Some {| method := Some "GET"; requestURI := Some uri; httpVersion := Some ver;
            statusCode := fst (handleFileRequest webRoot uri st);
            final := snd (handleFileRequest webRoot uri st) |}.
Proof.
  intros E F Hver Hd Htr Hh. rewrite (request_by_fields _ _ _ _ _ E), F. cbv zeta.
  cbn [lookup list_lookup]. rewrite Htr, Hd, Hh.
  destruct (handleFileRequest webRoot uri st).
  destruct Hver as [-> | ->]; reflexivity.
Qed.
End Lifecycle_facts.

(** ** The table of reason phrases *)

(** The walk down the table ends in one of two ways: at the end marker, or
    at an entry with the code asked for. *)
Lemma getReasonPhrase_cases (statusCode : Z) :
  getReasonPhrase statusCode = Some "Unknown Status Code" \/
  exists reason, In (statusCode, Some reason) HTTP_StatusCodes /\
                 getReasonPhrase statusCode = Some reason.
Proof.
  unfold getReasonPhrase, HTTP_StatusCodes. cbn [scan_codes Z.gtb Z.compare Pos.compare].
  repeat match goal with
         | |- context [Z.eqb ?k statusCode] =>
             destruct (Z.eqb_spec k statusCode) as [<-|_];
             [right; refine (ex_intro _ _ (conj _ eq_refl)); cbn; tauto|]
         end.
  left. reflexivity.
Qed.

Lemma scan_codes_not_null (statusCode : Z) : getReasonPhrase statusCode <> None.
Proof.
  destruct (getReasonPhrase_cases statusCode) as [->|(r & _ & ->)]; discriminate.
Qed.

(** C10: getReasonPhrase is a total function of the status code.  For a code
    that has an entry in HTTP_StatusCodes it returns that entry's reason
    phrase; for every other integer, 0 and the negative ones included, it
    returns "Unknown Status Code"; it never returns NULL. *)
Theorem getReasonPhrase_total (statusCode : Z) :
  (forall reason, In (statusCode, Some reason) HTTP_StatusCodes ->
                  getReasonPhrase statusCode = Some reason) /\
  ((forall reason, ~ In (statusCode, Some reason) HTTP_StatusCodes) ->
   getReasonPhrase statusCode = Some "Unknown Status Code") /\
  getReasonPhrase statusCode <> None.
Proof.
  split; [|split].
  - intros reason H. cbn in H.
    repeat (destruct H as [H|H]; [injection H as <- <-; reflexivity|]).
    destruct H as [H|[]]. discriminate H.
  - intros H. destruct (getReasonPhrase_cases statusCode) as [E|(r & Hin & _)];
      [exact E|]. destruct (H r Hin).
  - apply scan_codes_not_null.
Qed.

Lemma getReasonPhrase_total_witness :
  getReasonPhrase 404 = Some "Not Found" /\
  getReasonPhrase 0 = Some "Unknown Status Code" /\
  getReasonPhrase (-7) = Some "Unknown Status Code".
Proof.
  split; [|split].
  - apply (proj1 (getReasonPhrase_total 404)). cbn. tauto.
  - apply (proj1 (proj2 (getReasonPhrase_total 0))). intros reason H. cbn in H.
    repeat (destruct H as [H|H]; [discriminate H|]). exact H.
  - apply (proj1 (proj2 (getReasonPhrase_total (-7)))). intros reason H. cbn in H.
    repeat (destruct H as [H|H]; [discriminate H|]). exact H.
Defined.

(** ** Requests that are turned away *)

Lemma error_page_400 : c_str (status_buffer 400) = error_page "400" "Bad Request".
Proof. reflexivity. Qed.

Lemma error_page_404 : c_str (status_buffer 404) = error_page "404" "Not Found".
Proof. reflexivity. Qed.

Lemma error_page_501 : c_str (status_buffer 501) = error_page "501" "Not Implemented".
Proof. reflexivity. Qed.

(** C6: a request line that does not split into exactly three tokens, or
    whose first token is not GET, or whose third token is neither HTTP/1.0
    nor HTTP/1.1, ends with status 501, and the 501 response is what is sent;
    in the child process and in the worker thread alike. *)
Theorem malformed_request_line_is_501 (m : Fork.machine) (fs : filesys)
    (webRoot : string) (pid : Z) (c : connection) (a : Fork.reqstat)
    (requestLine : string) (rest : stream) :
  fgets 1000 (input c) = Some (requestLine, rest) ->
  List.length (fields (c_str requestLine)) <> 3%nat \/
  fields (c_str requestLine) !! 0%nat <> Some "GET" \/
  (fields (c_str requestLine) !! 2%nat <> Some "HTTP/1.0" /\
   fields (c_str requestLine) !! 2%nat <> Some "HTTP/1.1") ->
  (exists o log, Fork.main_child m webRoot pid c a = Some (o, log) /\
     statusCode o = 501 /\
     Fork.sent (final o) = [error_page "501" "Not Implemented"]) /\
  (exists o log, Pool.thr_worker fs webRoot c = Some (o, log) /\
     statusCode o = 501 /\
     final o = [error_page "501" "Not Implemented"]).
Proof.
  intros E H. split.
  - destruct (request_rejects Fork.sendStatusLine (Fork.handleFileRequest m)
                webRoot _ _ _ {| Fork.sent := []; Fork.area := a |} E H)
      as (o & Ho & Hs & Hf).
    exists o, (Fork.log_line (peer_addr c) pid o). unfold Fork.main_child.
    rewrite Ho, Hf. split; [reflexivity|split; [exact Hs|reflexivity]].
  - destruct (request_rejects Pool.sendStatusLine (Pool.handleFileRequest fs)
                webRoot _ _ _ [] E H) as (o & Ho & Hs & Hf).
    exists o, (Pool.log_line (local_addr c) o). unfold Pool.thr_worker.
    rewrite Ho, Hf. split; [reflexivity|split; [exact Hs|reflexivity]].
Qed.

Lemma malformed_request_line_is_501_witness :
  (exists o log,
     Fork.main_child plain_machine "/srv" 4242
       (client ("DELETE /index.html HTTP/1.0" +:+ crlf +:+ crlf)) Fork.area_init
       = Some (o, log) /\
     statusCode o = 501 /\
     Fork.sent (final o) = [error_page "501" "Not Implemented"]) /\
  (exists o log,
     Pool.thr_worker no_files "/srv"
       (client ("DELETE /index.html HTTP/1.0" +:+ crlf +:+ crlf)) = Some (o, log) /\
     statusCode o = 501 /\
     final o = [error_page "501" "Not Implemented"]).
Proof.
  apply (malformed_request_line_is_501 plain_machine no_files "/srv" 4242
           (client ("DELETE /index.html HTTP/1.0" +:+ crlf +:+ crlf)) Fork.area_init
           ("DELETE /index.html HTTP/1.0" +:+ crlf)
           {| pending := crlf; broken := false |}).
  - vm_compute. reflexivity.
  - right. left. vm_compute. discriminate.
Defined.

(** Against C1 as stated: the 501 checks come before the URI is looked at, so
    a POST for [/../] is answered with 501, not with 400. *)
Lemma traversal_uri_with_other_method :
  let c := client ("POST /../ HTTP/1.0" +:+ crlf +:+ crlf) in
  exists requestLine rest o log,
    fgets 1000 (input c) = Some (requestLine, rest) /\
    fields (c_str requestLine) !! 1%nat = Some "/../" /\
    contains "/../" "/../" /\
    Pool.thr_worker no_files "/srv" c = Some (o, log) /\
    statusCode o = 501 /\
    final o = [error_page "501" "Not Implemented"].
Proof.
  cbv zeta. do 4 eexists.
  split; [vm_compute; reflexivity|].
  split; [vm_compute; reflexivity|].
  split; [exists EmptyString, EmptyString; reflexivity|].
  split; [vm_compute; reflexivity|].
  split; reflexivity.
Qed.

(** C1, as the code has it: a request line of exactly three tokens with
    method GET and version HTTP/1.0 or HTTP/1.1 whose URI contains "/../" or
    ends with "/.." ends with status 400 and the 400 response is what is
    sent, whatever the document root holds; in the child process and in the
    worker thread alike. *)
Theorem traversal_uri_is_400 (m : Fork.machine) (fs : filesys)
    (webRoot : string) (pid : Z) (c : connection) (a : Fork.reqstat)
    (requestLine uri ver : string) (rest : stream) :
  fgets 1000 (input c) = Some (requestLine, rest) ->
  fields (c_str requestLine) = ["GET"; uri; ver] ->
  ver = "HTTP/1.0" \/ ver = "HTTP/1.1" ->
  contains uri "/../" \/ ends_with uri "/.." ->
  (exists o log, Fork.main_child m webRoot pid c a = Some (o, log) /\
     statusCode o = 400 /\
     Fork.sent (final o) = [error_page "400" "Bad Request"]) /\
  (exists o log, Pool.thr_worker fs webRoot c = Some (o, log) /\
     statusCode o = 400 /\
     final o = [error_page "400" "Bad Request"]).
Proof.
  intros E F Hver Huri. apply traversal_catches in Huri. split.
  - unfold Fork.main_child.
    rewrite (request_traversal Fork.sendStatusLine (Fork.handleFileRequest m)
               webRoot _ _ _ _ _ _ E F Hver Huri).
    do 2 eexists. split; [reflexivity|]. split; reflexivity.
  - unfold Pool.thr_worker.
    rewrite (request_traversal Pool.sendStatusLine (Pool.handleFileRequest fs)
               webRoot _ _ _ _ _ _ E F Hver Huri).
    do 2 eexists. split; [reflexivity|]. split; reflexivity.
Qed.

Lemma traversal_uri_is_400_witness :
  let c := client ("GET /docs/../../etc/passwd HTTP/1.1" +:+ crlf +:+ crlf) in
  (exists o log, Fork.main_child plain_machine "/srv" 4242 c Fork.area_init
                 = Some (o, log) /\
     statusCode o = 400 /\
     Fork.sent (final o) = [error_page "400" "Bad Request"]) /\
  (exists o log, Pool.thr_worker no_files "/srv" c = Some (o, log) /\
     statusCode o = 400 /\
     final o = [error_page "400" "Bad Request"]).
Proof.
  cbv zeta.
  apply (traversal_uri_is_400 plain_machine no_files "/srv" 4242
           (client ("GET /docs/../../etc/passwd HTTP/1.1" +:+ crlf +:+ crlf))
           Fork.area_init
           ("GET /docs/../../etc/passwd HTTP/1.1" +:+ crlf)
           "/docs/../../etc/passwd" "HTTP/1.1"
           {| pending := crlf; broken := false |}).
  - vm_compute. reflexivity.
  - vm_compute. reflexivity.
  - right. reflexivity.
  - left. exists "/docs", "../etc/passwd". reflexivity.
Defined.

(** ** Connections that send no request line *)

(** Against C4 as stated: for a client that connects and closes at once the
    lifecycle ends with status 400 and nothing at all was handed to [send]. *)
Lemma closed_connection_gets_no_response :
  let c := client EmptyString in
  fgets 1000 (input c) = None /\
  (exists o log, Fork.main_child plain_machine "/srv" 4242 c Fork.area_init
                 = Some (o, log) /\
     statusCode o = 400 /\ Fork.sent (final o) = []) /\
  (exists o log, Pool.thr_worker no_files "/srv" c = Some (o, log) /\
     statusCode o = 400 /\ final o = []).
Proof.
  cbv zeta. split; [reflexivity|]. split.
  - do 2 eexists. split; [vm_compute; reflexivity|]. split; reflexivity.
  - do 2 eexists. split; [vm_compute; reflexivity|]. split; reflexivity.
Qed.

(** C4, as the code has it: when the request line cannot be read (end of
    file or read error) the lifecycle sets status 400 and goes straight to
    the log line and the close.  Nothing is sent on the connection, the
    counters stay as they were, and the logged method, URI and version are
    empty. *)
Theorem unread_request_line_is_400_unanswered (m : Fork.machine) (fs : filesys)
    (webRoot : string) (pid : Z) (c : connection) (a : Fork.reqstat) :
  fgets 1000 (input c) = None ->
  (exists o, Fork.main_child m webRoot pid c a
             = Some (o, Fork.log_line (peer_addr c) pid o) /\
     statusCode o = 400 /\
     Fork.sent (final o) = [] /\ Fork.area (final o) = a /\
     method o = Some "" /\ requestURI o = Some "" /\ httpVersion o = Some "") /\
  (exists o, Pool.thr_worker fs webRoot c
             = Some (o, Pool.log_line (local_addr c) o) /\
     statusCode o = 400 /\
     final o = [] /\
     method o = Some "" /\ requestURI o = Some "" /\ httpVersion o = Some "").
Proof.
  intros E. split.
  - unfold Fork.main_child.
    rewrite (request_unread Fork.sendStatusLine (Fork.handleFileRequest m) webRoot _ _ E).
    eexists. split; [reflexivity|]. cbn. tauto.
  - unfold Pool.thr_worker.
    rewrite (request_unread Pool.sendStatusLine (Pool.handleFileRequest fs) webRoot _ _ E).
    eexists. split; [reflexivity|]. cbn. tauto.
Qed.

Lemma unread_request_line_is_400_unanswered_witness :
  let c := {| peer_addr := 167772167; local_addr := 3232235521;
              input := {| pending := "GET / HT"; broken := true |} |} in
  (exists o, Fork.main_child plain_machine "/srv" 4242 c Fork.area_init
             = Some (o, Fork.log_line (peer_addr c) 4242 o) /\
     statusCode o = 400 /\
     Fork.sent (final o) = [] /\ Fork.area (final o) = Fork.area_init /\
     method o = Some "" /\ requestURI o = Some "" /\ httpVersion o = Some "") /\
  (exists o, Pool.thr_worker no_files "/srv" c
             = Some (o, Pool.log_line (local_addr c) o) /\
     statusCode o = 400 /\
     final o = [] /\
     method o = Some "" /\ requestURI o = Some "" /\ httpVersion o = Some "").
Proof.
  cbv zeta.
  apply (unread_request_line_is_400_unanswered plain_machine no_files "/srv" 4242
           {| peer_addr := 167772167; local_addr := 3232235521;
              input := {| pending := "GET / HT"; broken := true |} |}
           Fork.area_init).
  vm_compute. reflexivity.
Defined.

(** ** A file that is not there *)

Lemma last_char_append (a b : string) (c : ascii) :
  last_char (a +:+ String c b) = last_char (String c b).
Proof.
  induction a as [|d a IH]; [reflexivity|].
  change (String d a +:+ String c b) with (String d (a +:+ String c b)).
  cbn [last_char]. rewrite IH.
  destruct (a +:+ String c b) eqn:E; [|reflexivity].
  destruct a; discriminate E.
Qed.

Lemma resolve_missing (webRoot : string) :
  resolve webRoot "/missing.html" = webRoot +:+ "/missing.html".
Proof. unfold resolve. rewrite last_char_append. reflexivity. Qed.

Lemma c_str_append (a b : string) : nul_free a -> c_str (a +:+ b) = a +:+ c_str b.
Proof.
  induction a as [|c a IH]; intros H; [reflexivity|].
  apply nul_free_String in H as [Hc Ha]. simpl.
  destruct (Ascii.eqb_spec c NUL); [contradiction|]. now rewrite IH.
Qed.

(** C5: the request GET /missing.html HTTP/1.0 followed by an empty line,
    for a path that is no directory and cannot be opened, is answered with
    exactly the 404 status line, the empty line and the 404 page: one buffer,
    nothing before it and nothing after it; in the child process and in the
    worker thread alike. *)
Theorem missing_file_is_404 (m : Fork.machine) (fs : filesys)
    (webRoot : string) (pid : Z) (c : connection) (a : Fork.reqstat) :
  pending (input c) = "GET /missing.html HTTP/1.0" +:+ crlf +:+ crlf ->
  is_dir (Fork.disk m) (webRoot +:+ "/missing.html") = false ->
  fopen (Fork.disk m) (webRoot +:+ "/missing.html") = None ->
  is_dir fs (webRoot +:+ "/missing.html") = false ->
  fopen fs (webRoot +:+ "/missing.html") = None ->
  (exists o log, Fork.main_child m webRoot pid c a = Some (o, log) /\
     statusCode o = 404 /\
     Fork.sent (final o) = [error_page "404" "Not Found"]) /\
  (exists o log, Pool.thr_worker fs webRoot c = Some (o, log) /\
     statusCode o = 404 /\
     final o = [error_page "404" "Not Found"]).
Proof.
  intros Hin Hd1 Ho1 Hd2 Ho2.
  assert (E : fgets 1000 (input c)
              = Some ("GET /missing.html HTTP/1.0" +:+ crlf,
                      {| pending := crlf; broken := broken (input c) |})).
  { unfold fgets. rewrite Hin. vm_compute. reflexivity. }
  assert (F : fields (c_str ("GET /missing.html HTTP/1.0" +:+ crlf))
              = ["GET"; "/missing.html"; "HTTP/1.0"]%string) by reflexivity.
  assert (Hh : skip_headers 3 {| pending := crlf; broken := broken (input c) |}
               = Blank {| pending := EmptyString; broken := broken (input c) |})
    by reflexivity.
  split.
  - unfold Fork.main_child.
    rewrite (request_accepts _ _ _ _ _ _ _ _ _ _ E F (or_introl eq_refl)
               eq_refl eq_refl Hh).
    unfold Fork.handleFileRequest.
    rewrite c_str_append by reflexivity.
    replace (strcmp (Fork.statistics +:+ c_str (Fork.behind_statistics m))
               "/missing.html" =? 0) with false by reflexivity.
    rewrite resolve_missing, Hd1, Ho1.
    do 2 eexists. split; [reflexivity|]. split; reflexivity.
  - unfold Pool.thr_worker.
    rewrite (request_accepts _ _ _ _ _ _ _ _ _ _ E F (or_introl eq_refl)
               eq_refl eq_refl Hh).
    unfold Pool.handleFileRequest. rewrite resolve_missing, Hd2, Ho2.
    do 2 eexists. split; [reflexivity|]. split; reflexivity.
Qed.

Lemma missing_file_is_404_witness :
  let c := client ("GET /missing.html HTTP/1.0" +:+ crlf +:+ crlf) in
  (exists o log, Fork.main_child plain_machine "/srv/www" 4242 c Fork.area_init
                 = Some (o, log) /\
     statusCode o = 404 /\
     Fork.sent (final o) = [error_page "404" "Not Found"]) /\
  (exists o log, Pool.thr_worker no_files "/srv/www" c = Some (o, log) /\
     statusCode o = 404 /\
     final o = [error_page "404" "Not Found"]).
Proof.
  cbv zeta.
  apply (missing_file_is_404 plain_machine no_files "/srv/www" 4242
           (client ("GET /missing.html HTTP/1.0" +:+ crlf +:+ crlf))
           Fork.area_init); reflexivity.
Defined.

(** ** The log line *)

Lemma fork_log_line (addr pid : Z) (o : outcome Fork.state) :
  Fork.log_line addr pid o =
    log_format_pid (inet_ntoa addr) (show_int pid)
      (show_str (method o)) (show_str (requestURI o)) (show_str (httpVersion o))
      (show_int (statusCode o)) (show_str (getReasonPhrase (statusCode o)))
    +:+ lf.
Proof.
  unfold Fork.log_line, log_format_pid.
  rewrite !append_assoc. reflexivity.
Qed.

Lemma pool_log_line (addr : Z) (o : outcome (list string)) :
  Pool.log_line addr o =
    log_format (inet_ntoa addr)
      (show_str (method o)) (show_str (requestURI o)) (show_str (httpVersion o))
      (show_int (statusCode o)) (show_str (getReasonPhrase (statusCode o)))
    +:+ lf.
Proof.
  unfold Pool.log_line, log_format.
  rewrite !append_assoc. reflexivity.
Qed.

(** Against C9 as stated: the child process logs its process id between the
    address and the request line. *)
Lemma child_log_line_has_pid :
  let c := client ("GET /missing.html HTTP/1.0" +:+ crlf +:+ crlf) in
  exists o log,
    Fork.main_child plain_machine "/srv" 4242 c Fork.area_init = Some (o, log) /\
    log = "10.0.0.7 (4242) " +:+ dq +:+ "GET /missing.html HTTP/1.0" +:+ dq +:+
          " 404 Not Found" +:+ lf /\
    log <> log_format (inet_ntoa (peer_addr c)) "GET" "/missing.html" "HTTP/1.0"
                      "404" "Not Found" +:+ lf.
Proof.
  cbv zeta. do 2 eexists. split; [vm_compute; reflexivity|].
  split; [reflexivity|]. vm_compute. discriminate.
Qed.

(** The worker thread logs the address that [getsockname] reports, the
    server's end of the connection. *)
Lemma worker_log_line_address :
  let c := client ("GET /missing.html HTTP/1.0" +:+ crlf +:+ crlf) in
  exists o log,
    Pool.thr_worker no_files "/srv" c = Some (o, log) /\
    inet_ntoa (peer_addr c) = "10.0.0.7"%string /\
    log = log_format "192.168.0.1" "GET" "/missing.html" "HTTP/1.0"
                     "404" "Not Found" +:+ lf.
Proof.
  cbv zeta. do 2 eexists. split; [vm_compute; reflexivity|].
  split; reflexivity.
Qed.

(** C9, as the code has it: every lifecycle ends with one log line.  The
    worker thread prints an address, the quoted method, URI and version, the
    status and its reason phrase, and nothing else; the child process prints
    the client's address and, before the quoted request line, its process id
    in parentheses. *)
Theorem log_line_shape (m : Fork.machine) (fs : filesys) (webRoot : string)
    (pid : Z) (c : connection) (a : Fork.reqstat) :
  (exists o,
     Fork.main_child m webRoot pid c a =
       Some (o, log_format_pid (inet_ntoa (peer_addr c)) (show_int pid)
                  (show_str (method o)) (show_str (requestURI o))
                  (show_str (httpVersion o)) (show_int (statusCode o))
                  (show_str (getReasonPhrase (statusCode o))) +:+ lf)) /\
  (exists o addr,
     Pool.thr_worker fs webRoot c =
       Some (o, log_format (inet_ntoa addr)
                  (show_str (method o)) (show_str (requestURI o))
                  (show_str (httpVersion o)) (show_int (statusCode o))
                  (show_str (getReasonPhrase (statusCode o))) +:+ lf)).
Proof.
  split.
  - destruct (request_returns Fork.sendStatusLine (Fork.handleFileRequest m)
                webRoot (input c) {| Fork.sent := []; Fork.area := a |}) as [o Ho].
    exists o. unfold Fork.main_child. rewrite Ho, fork_log_line. reflexivity.
  - destruct (request_returns Pool.sendStatusLine (Pool.handleFileRequest fs)
                webRoot (input c) []) as [o Ho].
    exists o, (local_addr c). unfold Pool.thr_worker.
    rewrite Ho, pool_log_line. reflexivity.
Qed.

(** ** The statistics page *)

Lemma prefix_split (s t : string) :
  String.prefix s t = true -> exists b, t = s +:+ b.
Proof.
  revert t. induction s as [|c s IH]; intros t H.
  - exists t. reflexivity.
  - destruct t as [|d t]; [discriminate H|]. simpl in H.
    destruct (ascii_dec c d) as [->|]; [|discriminate H].
    destruct (IH t H) as [b ->]. exists b. reflexivity.
Qed.

(** Where [strstr] finds something, the needle occurs. *)
Lemma strstr_sound (t s : string) : not_null (strstr t s) = true -> contains t s.
Proof.
  induction t as [|c t IH]; cbn [strstr].
  - destruct (String.prefix s EmptyString) eqn:E; [|discriminate].
    intros _. apply prefix_split in E as [b ->]. exists EmptyString, b. reflexivity.
  - destruct (String.prefix s (String c t)) eqn:E.
    + intros _. apply prefix_split in E as [b ->]. exists EmptyString, b. reflexivity.
    + intros H. destruct (IH H) as (a & b & ->). exists (String c a), b. reflexivity.
Qed.

(** Against C2 as stated: after three 2xx responses and one 4xx response the
    statistics page shows four 2xx responses, not three; the request for the
    page is counted before the page is printed. *)
Lemma statistics_page_counts_itself :
  let c := client ("GET /statistics HTTP/1.0" +:+ crlf +:+ crlf) in
  exists o log page,
    Fork.main_child plain_machine "/srv" 4242 c three_and_one = Some (o, log) /\
    statusCode o = 200 /\
    Fork.sent (final o) = [page] /\
    ~ contains page "Number of 2XX : 3" /\
    contains page "Number of 2XX : 4".
Proof.
  cbv zeta. do 3 eexists. split; [vm_compute; reflexivity|].
  split; [reflexivity|]. split; [reflexivity|]. split.
  - intros H. apply strstr_contains in H. vm_compute in H. discriminate H.
  - apply strstr_sound. vm_compute. reflexivity.
Qed.

(** What the missing terminator of [statistics] does: where another byte
    follows the array, [/statistics] is looked up as a file and the page is
    served under the longer name. *)
Lemma statistics_without_terminator :
  (exists o log,
     Fork.main_child trailing_machine "/srv" 4242
       (client ("GET /statistics HTTP/1.0" +:+ crlf +:+ crlf)) three_and_one
       = Some (o, log) /\
     statusCode o = 404) /\
  (exists o log,
     Fork.main_child trailing_machine "/srv" 4242
       (client ("GET /statisticsX HTTP/1.0" +:+ crlf +:+ crlf)) three_and_one
       = Some (o, log) /\
     statusCode o = 200 /\ Fork.num_two (Fork.area (final o)) = 4).
Proof.
  split; do 2 eexists; (split; [vm_compute; reflexivity|]);
    [reflexivity|split; reflexivity].
Qed.

(** C2, as the code has it: in the child process, with three 2xx responses
    and one 4xx response counted so far, and where the byte that follows the
    11-byte array [statistics] in memory is zero (so that the comparison of
    the array with the URI ends at the array's end), GET /statistics HTTP/1.0
    is answered with status 200 and a page that holds "Number of 2XX : 4"
    and "Number of 4XX : 1": the request for the page is itself counted as a
    2xx response before the page is printed.  Nothing is said here about a
    machine where another byte follows the array. *)
Theorem statistics_page_after_three_and_one (m : Fork.machine)
    (webRoot : string) (pid : Z) (c : connection) :
  pending (input c) = "GET /statistics HTTP/1.0" +:+ crlf +:+ crlf ->
  c_str (Fork.behind_statistics m) = EmptyString ->
  exists o log page,
    Fork.main_child m webRoot pid c three_and_one = Some (o, log) /\
    statusCode o = 200 /\
    Fork.sent (final o) = [page] /\
    contains page "Number of 2XX : 4" /\
    contains page "Number of 4XX : 1" /\
    Fork.area (final o) =
      {| Fork.num_two := 4; Fork.num_three := 0;
         Fork.num_four := 1; Fork.num_five := 0 |}.
Proof.
  intros Hin Hz.
  assert (E : fgets 1000 (input c)
              = Some ("GET /statistics HTTP/1.0" +:+ crlf,
                      {| pending := crlf; broken := broken (input c) |})).
  { unfold fgets. rewrite Hin. vm_compute. reflexivity. }
  assert (F : fields (c_str ("GET /statistics HTTP/1.0" +:+ crlf))
              = ["GET"; "/statistics"; "HTTP/1.0"]%string) by reflexivity.
  assert (Hh : skip_headers 3 {| pending := crlf; broken := broken (input c) |}
               = Blank {| pending := EmptyString; broken := broken (input c) |})
    by reflexivity.
  unfold Fork.main_child.
  rewrite (request_accepts _ _ _ _ _ _ _ _ _ _ E F (or_introl eq_refl)
             eq_refl eq_refl Hh).
  unfold Fork.handleFileRequest.
  rewrite c_str_append, Hz by reflexivity.
  do 3 eexists. split; [reflexivity|].
  split; [reflexivity|]. split; [reflexivity|].
  split; [apply strstr_sound; vm_compute; reflexivity|].
  split; [apply strstr_sound; vm_compute; reflexivity|reflexivity].
Qed.

Lemma statistics_page_after_three_and_one_witness :
  exists o log page,
    Fork.main_child plain_machine "/srv" 4242
      (client ("GET /statistics HTTP/1.0" +:+ crlf +:+ crlf)) three_and_one
      = Some (o, log) /\
    statusCode o = 200 /\
    Fork.sent (final o) = [page] /\
    contains page "Number of 2XX : 4" /\
    contains page "Number of 4XX : 1" /\
    Fork.area (final o) =
      {| Fork.num_two := 4; Fork.num_three := 0;
         Fork.num_four := 1; Fork.num_five := 0 |}.
Proof.
  apply (statistics_page_after_three_and_one plain_machine "/srv" 4242
           (client ("GET /statistics HTTP/1.0" +:+ crlf +:+ crlf)));
    reflexivity.
Defined.

(** ** The counters *)

Lemma Send_not_nil (sent : list string) (buf : string) : Send sent buf <> [].
Proof. unfold Send. destruct sent; discriminate. Qed.

Lemma app_not_nil (A : Type) (l k : list A) : l <> [] -> l ++ k <> [].
Proof. destruct l; [contradiction|discriminate]. Qed.

(** [handleFileRequest] answers 200 or 404, always sends, and counts its
    response once, in the bucket of the status it returns. *)
Lemma handleFileRequest_accounting (m : Fork.machine) (webRoot uri : string)
    (st : Fork.state) :
  let r := Fork.handleFileRequest m webRoot uri st in
  (fst r = 200 \/ fst r = 404) /\
  Fork.sent (snd r) <> [] /\
  Fork.area (snd r) = Fork.tally (fst r) (Fork.area st).
Proof.
  cbv zeta. unfold Fork.handleFileRequest.
  destruct (strcmp _ uri =? 0).
  { split; [now left|]. split; [apply Send_not_nil|reflexivity]. }
  destruct (is_dir _ _).
  { split; [now left|]. split; [apply Send_not_nil|reflexivity]. }
  destruct (fopen _ _).
  - split; [now left|]. split; [apply app_not_nil, Send_not_nil|reflexivity].
  - split; [now right|]. split; [apply Send_not_nil|reflexivity].
Qed.

(** One child: either it hands nothing to [send], ends with 400 and leaves
    the counters alone, or it sends and adds one to the bucket of its
    status. *)
Lemma child_accounting (m : Fork.machine) (webRoot : string) (pid : Z)
    (c : connection) (a : Fork.reqstat) :
  exists o log,
    Fork.main_child m webRoot pid c a = Some (o, log) /\
    ((responded o = false /\ statusCode o = 400 /\ Fork.area (final o) = a) \/
     (responded o = true /\
      (statusCode o = 200 \/ statusCode o = 400 \/ statusCode o = 404 \/
       statusCode o = 501) /\
      Fork.area (final o) = Fork.tally (statusCode o) a)).
Proof.
  unfold Fork.main_child.
  set (st := {| Fork.sent := []; Fork.area := a |}).
  assert (Hsend : forall code, (code = 400 \/ code = 501) ->
            forall mt u v, let o := {| method := mt; requestURI := u; httpVersion := v;
                        statusCode := code; final := Fork.sendStatusLine code st |} in
            responded o = true /\
            (statusCode o = 200 \/ statusCode o = 400 \/ statusCode o = 404 \/
             statusCode o = 501) /\
            Fork.area (final o) = Fork.tally (statusCode o) a).
  { intros code Hc mt u v. cbv zeta. split; [reflexivity|]. split; [cbn; tauto|].
    reflexivity. }
  destruct (fgets 1000 (input c)) as [[line rest]|] eqn:E.
  - rewrite (request_by_fields _ _ _ _ _ _ _ E). cbv zeta.
    destruct (fields (c_str line)) as [|mt [|uri [|ver [|extra ws]]]];
      try (do 2 eexists; split; [reflexivity|]; right; apply Hsend; tauto).
    destruct (negb (bool_decide (mt = "GET")));
      [do 2 eexists; split; [reflexivity|]; right; apply Hsend; tauto|].
    destruct (negb _ && negb _);
      [do 2 eexists; split; [reflexivity|]; right; apply Hsend; tauto|].
    destruct (negb (Ascii.eqb _ _));
      [do 2 eexists; split; [reflexivity|]; right; apply Hsend; tauto|].
    destruct (traversal uri);
      [do 2 eexists; split; [reflexivity|]; right; apply Hsend; tauto|].
    pose proof (skip_headers_finishes (S (String.length (pending rest))) rest) as Hf.
    destruct (skip_headers _ rest).
    + pose proof (handleFileRequest_accounting m webRoot uri st) as Hh.
      cbv zeta in Hh. destruct (Fork.handleFileRequest m webRoot uri st) as [code st'].
      cbn [fst snd] in Hh. destruct Hh as (Hcode & Hsent & Harea).
      do 2 eexists. split; [reflexivity|]. right. cbn.
      split; [unfold responded; cbn; now destruct (Fork.sent st')|].
      split; [tauto|exact Harea].
    + do 2 eexists. split; [reflexivity|]. left. cbn. tauto.
    + destruct Hf; [lia|reflexivity].
  - rewrite (request_unread _ _ _ _ _ E).
    do 2 eexists. split; [reflexivity|]. left. cbn. tauto.
Qed.

Lemma int_small (z : Z) : 0 <= z <= Fork.INT_MAX -> Fork.int z = z.
Proof.
  unfold Fork.int, Fork.INT_MAX. intros H.
  rewrite Z.mod_small by lia. lia.
Qed.

(** The hundreds digits of the four status codes a lifecycle can end with. *)
Ltac hundreds :=
  change (Z.quot 200 100) with 2 in *;
  change (Z.quot 400 100) with 4 in *;
  change (Z.quot 404 100) with 4 in *;
  change (Z.quot 501 100) with 5 in *.

Lemma answered_in_sum (os : list (outcome Fork.state)) :
  Forall (fun o => responded o = true ->
            statusCode o = 200 \/ statusCode o = 400 \/ statusCode o = 404 \/
            statusCode o = 501) os ->
  answered_in 2 os + answered_in 3 os + answered_in 4 os + answered_in 5 os
  = answered os.
Proof.
  induction 1 as [|o os Ho _ IH]; [reflexivity|].
  cbn [answered_in answered]. destruct (responded o); [|cbn; lia].
  destruct (Ho eq_refl) as [-> | [-> | [-> | ->]]]; hundreds; cbn; lia.
Qed.

(** Children run one after the other from counters with enough room. *)
Lemma children_accounting (m : Fork.machine) (webRoot : string)
    (cs : list (Z * connection)) :
  forall a : Fork.reqstat,
    0 <= Fork.num_two a /\ Fork.num_two a + Z.of_nat (List.length cs) <= Fork.INT_MAX ->
    0 <= Fork.num_three a /\ Fork.num_three a + Z.of_nat (List.length cs) <= Fork.INT_MAX ->
    0 <= Fork.num_four a /\ Fork.num_four a + Z.of_nat (List.length cs) <= Fork.INT_MAX ->
    0 <= Fork.num_five a /\ Fork.num_five a + Z.of_nat (List.length cs) <= Fork.INT_MAX ->
    exists os a',
      Fork.children m webRoot cs a = Some (os, a') /\
      List.length os = List.length cs /\
      Fork.num_two a' = Fork.num_two a + answered_in 2 os /\
      Fork.num_three a' = Fork.num_three a + answered_in 3 os /\
      Fork.num_four a' = Fork.num_four a + answered_in 4 os /\
      Fork.num_five a' = Fork.num_five a + answered_in 5 os /\
      Forall (fun o => responded o = false -> statusCode o = 400) os /\
      Forall (fun o => responded o = true ->
                statusCode o = 200 \/ statusCode o = 400 \/ statusCode o = 404 \/
                statusCode o = 501) os.
Proof.
  induction cs as [|[pid c] cs IH]; intros a H2 H3 H4 H5.
  - exists [], a. cbn. repeat split; try lia; constructor.
  - cbn [Fork.children].
    destruct (child_accounting m webRoot pid c a) as (o & log & -> & Ho).
    cbn [List.length] in H2, H3, H4, H5.
    assert (Hroom :
      0 <= Fork.num_two (Fork.area (final o)) /\
      Fork.num_two (Fork.area (final o)) + Z.of_nat (List.length cs) <= Fork.INT_MAX /\
      0 <= Fork.num_three (Fork.area (final o)) /\
      Fork.num_three (Fork.area (final o)) + Z.of_nat (List.length cs) <= Fork.INT_MAX /\
      0 <= Fork.num_four (Fork.area (final o)) /\
      Fork.num_four (Fork.area (final o)) + Z.of_nat (List.length cs) <= Fork.INT_MAX /\
      0 <= Fork.num_five (Fork.area (final o)) /\
      Fork.num_five (Fork.area (final o)) + Z.of_nat (List.length cs) <= Fork.INT_MAX /\
      Fork.num_two (Fork.area (final o)) =
        Fork.num_two a + (if responded o && (Z.quot (statusCode o) 100 =? 2) then 1 else 0) /\
      Fork.num_three (Fork.area (final o)) =
        Fork.num_three a + (if responded o && (Z.quot (statusCode o) 100 =? 3) then 1 else 0) /\
      Fork.num_four (Fork.area (final o)) =
        Fork.num_four a + (if responded o && (Z.quot (statusCode o) 100 =? 4) then 1 else 0) /\
      Fork.num_five (Fork.area (final o)) =
        Fork.num_five a + (if responded o && (Z.quot (statusCode o) 100 =? 5) then 1 else 0)).
    { destruct Ho as [(-> & _ & ->)|(-> & Hcode & ->)]; [cbn; lia|].
      destruct Hcode as [-> | [-> | [-> | ->]]];
        unfold Fork.tally; hundreds; cbn; rewrite int_small by lia; lia. }
    destruct Hroom as (R2 & R2' & R3 & R3' & R4 & R4' & R5 & R5' & E2 & E3 & E4 & E5).
    destruct (IH (Fork.area (final o))) as
      (os & a' & -> & Hlen & A2 & A3 & A4 & A5 & Hno & Hyes); try (split; assumption).
    exists (o :: os), a'. split; [reflexivity|]. cbn [List.length answered_in].
    split; [now rewrite Hlen|].
    repeat (split; [lia|]).
    split; constructor; try assumption.
    + intros Hr. destruct Ho as [(_ & Hs & _)|(Hr' & _)]; [exact Hs|congruence].
    + intros Hr. destruct Ho as [(Hr' & _)|(_ & Hs & _)]; [congruence|exact Hs].
Qed.

(** Against C3 as stated: one client that closes without sending ends its
    lifecycle with status 400, and no counter has moved. *)
Lemma early_close_is_not_counted :
  exists os a,
    Fork.children plain_machine "/srv" [(4242, client EmptyString)] Fork.area_init
      = Some (os, a) /\
    List.length os = 1%nat /\
    map statusCode os = [400] /\
    Fork.num_two a + Fork.num_three a + Fork.num_four a + Fork.num_five a = 0 /\
    Fork.num_four a <> ended_in 4 os.
Proof.
  do 2 eexists. split; [vm_compute; reflexivity|].
  split; [reflexivity|]. split; [reflexivity|]. split; [reflexivity|].
  vm_compute. discriminate.
Qed.

(** C3, as the code has it: after N lifecycles run from zeroed counters (N
    within the range of an int), each bucket equals the number of lifecycles
    that sent a response and ended with a status of that hundreds digit, and
    the four buckets add up to the number of lifecycles that sent a
    response.  A lifecycle that sends nothing, which is how the two
    end-of-input paths end, has status 400 and is counted in no bucket. *)
Theorem counters_tally_sent_responses (m : Fork.machine) (webRoot : string)
    (cs : list (Z * connection)) :
  Z.of_nat (List.length cs) <= Fork.INT_MAX ->
  exists os a,
    Fork.children m webRoot cs Fork.area_init = Some (os, a) /\
    List.length os = List.length cs /\
    Fork.num_two a = answered_in 2 os /\
    Fork.num_three a = answered_in 3 os /\
    Fork.num_four a = answered_in 4 os /\
    Fork.num_five a = answered_in 5 os /\
    Fork.num_two a + Fork.num_three a + Fork.num_four a + Fork.num_five a
      = answered os /\
    Forall (fun o => responded o = false -> statusCode o = 400) os.
Proof.
  intros HN.
  destruct (children_accounting m webRoot cs Fork.area_init) as
    (os & a & E & Hlen & A2 & A3 & A4 & A5 & Hno & Hyes); try (cbn; lia).
  exists os, a. cbn in A2, A3, A4, A5.
  repeat (split; [assumption|]). split; [|exact Hno].
  rewrite A2, A3, A4, A5. now apply answered_in_sum.
Qed.

Lemma counters_tally_sent_responses_witness :
  exists os a,
    Fork.children plain_machine "/srv"
      [(4242, client ("GET /missing.html HTTP/1.0" +:+ crlf +:+ crlf));
       (4243, client EmptyString);
       (4244, client ("GET /statistics HTTP/1.0" +:+ crlf +:+ crlf))]
      Fork.area_init = Some (os, a) /\
    List.length os = 3%nat /\
    Fork.num_two a = answered_in 2 os /\
    Fork.num_three a = answered_in 3 os /\
    Fork.num_four a = answered_in 4 os /\
    Fork.num_five a = answered_in 5 os /\
    Fork.num_two a + Fork.num_three a + Fork.num_four a + Fork.num_five a
      = answered os /\
    Forall (fun o => responded o = false -> statusCode o = 400) os.
Proof.
  apply (counters_tally_sent_responses plain_machine "/srv"
           [(4242, client ("GET /missing.html HTTP/1.0" +:+ crlf +:+ crlf));
            (4243, client EmptyString);
            (4244, client ("GET /statistics HTTP/1.0" +:+ crlf +:+ crlf))]).
  vm_compute. discriminate.
Defined.

(** ** Sending a file *)

Lemma fread_advance (n : nat) (data : string) :
  fread n data +:+ advance n data = data.
Proof.
  revert data. induction n as [|n IH]; intros [|c r]; try reflexivity.
  cbn [fread advance]. change (String c (fread n r +:+ advance n r) = String c r).
  now rewrite IH.
Qed.

Lemma advance_length (n : nat) (data : string) :
  (String.length (advance n data) <= String.length data)%nat.
Proof.
  revert data. induction n as [|n IH]; intros [|c r]; cbn; try lia.
  specialize (IH r). lia.
Qed.

Lemma concat_cons (b : string) (bs : list string) :
  String.concat EmptyString (b :: bs) = b +:+ String.concat EmptyString bs.
Proof.
  destruct bs as [|b' bs]; cbn [String.concat]; [|reflexivity].
  induction b as [|c b IH]; [reflexivity|].
  change (String c b = String c (b +:+ EmptyString)). now rewrite <- IH.
Qed.

(** The rounds given to the loop are enough: when no [send] comes back
    short, the blocks handed over make up the whole file. *)
Lemma send_blocks_whole (fs : filesys) (size fuel : nat) :
  forall (k : nat) (data : string),
    (0 < size)%nat ->
    (forall i, send_ok fs i = true) ->
    (String.length data <= fuel)%nat ->
    String.concat EmptyString (send_blocks size fuel fs k data) = data.
Proof.
  induction fuel as [|fuel IH]; intros k data Hsize Hok Hlen.
  - destruct data; [reflexivity|cbn in Hlen; lia].
  - destruct data as [|c r]; [reflexivity|].
    cbn [send_blocks]. rewrite Hok, concat_cons, IH; try assumption.
    + apply fread_advance.
    + destruct size as [|n]; [lia|]. cbn [advance].
      pose proof (advance_length n r). cbn in Hlen. lia.
Qed.

Lemma send_file_whole (fs : filesys) (data : string) :
  (forall i, send_ok fs i = true) ->
  String.concat EmptyString (send_file fs data) = data.
Proof.
  intros Hok. apply send_blocks_whole; [apply Nat.lt_0_succ|exact Hok|lia].
Qed.

(** ** The blocking queue *)

Section Paths.
Import Pool.
Implicit Types (h : gmap loc message) (p : option loc) (ls : list loc).

Lemma path_unique h p ls1 : forall ls2, path h p ls1 -> path h p ls2 -> ls1 = ls2.
Proof.
  revert p. induction ls1 as [|l ls1 IH]; intros p [|l' ls2]; cbn.
  - reflexivity.
  - intros -> [E _]. discriminate E.
  - intros [-> _] E. discriminate E.
  - intros [-> (m1 & H1 & P1)] [[= <-] (m2 & H2 & P2)].
    rewrite H1 in H2. injection H2 as <-. f_equal. exact (IH _ _ P1 P2).
Qed.

Lemma path_from_middle h p ls1 l ls2 :
  path h p (ls1 ++ l :: ls2) -> path h (Some l) (l :: ls2).
Proof.
  revert p. induction ls1 as [|x ls1 IH]; intros p; cbn.
  - intros [-> H]. split; [reflexivity|exact H].
  - intros [_ (m & _ & H)]. exact (IH _ H).
Qed.

(** A list that reaches NULL visits no node twice. *)
Lemma path_NoDup h p ls : path h p ls -> NoDup ls.
Proof.
  revert p. induction ls as [|l ls IH]; intros p H; [constructor|].
  pose proof H as [-> (m & Hm & Hp)]. constructor; [|exact (IH _ Hp)].
  intros Hin. apply list_elem_of_split in Hin as (ls1 & ls2 & ->).
  pose proof (path_from_middle _ _ _ _ _ Hp) as H'.
  pose proof (path_unique _ _ _ _ H H') as E.
  apply (f_equal List.length) in E. cbn in E. rewrite length_app in E. cbn in E. lia.
Qed.

Lemma path_allocated h p ls l : path h p ls -> l ∈ ls -> is_Some (h !! l).
Proof.
  revert p. induction ls as [|x ls IH]; intros p; cbn.
  - intros _ H. inversion H.
  - intros [_ (m & Hm & Hp)] H. apply elem_of_cons in H as [->|H]; [eauto|].
    exact (IH _ Hp H).
Qed.

(** A path only depends on the nodes it visits. *)
Lemma path_frame h h' p ls :
  (forall l, l ∈ ls -> h' !! l = h !! l) -> path h p ls -> path h' p ls.
Proof.
  revert p. induction ls as [|x ls IH]; intros p Hsame; cbn; [tauto|].
  intros [-> (m & Hm & Hp)]. split; [reflexivity|]. exists m. split.
  - rewrite Hsame; [exact Hm|]. apply elem_of_cons. now left.
  - apply IH; [|exact Hp]. intros l Hl. apply Hsame, elem_of_cons. now right.
Qed.

(** Linking a new node behind the last one extends the path by it. *)
Lemma path_snoc h p ls l msg pmsg new :
  path h p ls -> last ls = Some l -> h !! l = Some msg -> pmsg ∉ ls ->
  next new = None ->
  path (<[l := {| sock := sock msg; next := Some pmsg |}]> (<[pmsg := new]> h))
       p (ls ++ [pmsg]).
Proof.
  intros Hp Hlast Hl Hfresh Hnew. pose proof (path_NoDup _ _ _ Hp) as Hnd.
  revert p Hp Hlast Hfresh Hnd. induction ls as [|x ls IH]; intros p Hp Hlast Hfresh Hnd.
  - discriminate Hlast.
  - destruct Hp as [-> (m & Hm & Hp)]. apply not_elem_of_cons in Hfresh as [Hx Hfresh].
    apply NoDup_cons in Hnd as [Hxls Hnd].
    destruct ls as [|y ls].
    + cbn in Hlast. injection Hlast as ->. cbn in Hp. rewrite Hm in Hl.
      injection Hl as ->. cbn. split; [reflexivity|].
      eexists. split; [apply lookup_insert_eq|]. cbn. split; [reflexivity|].
      exists new. split; [|exact Hnew].
      rewrite lookup_insert_ne by congruence. apply lookup_insert_eq.
    + rewrite last_cons_cons in Hlast.
      assert (x <> l).
      { intros ->. apply Hxls. apply last_Some_elem_of. exact Hlast. }
      split; [reflexivity|]. exists m. split.
      * rewrite !lookup_insert_ne by congruence. exact Hm.
      * exact (IH _ Hp Hlast Hfresh Hnd).
Qed.
End Paths.

Section Queue_facts.
Import Pool.
Variable malloc : gmap loc message -> loc.
Hypothesis malloc_fresh : forall h : gmap loc message, h !! malloc h = None.

Lemma uint_small (z : Z) : 0 <= z <= UINT_MAX -> uint z = z.
Proof. unfold uint, UINT_MAX. intros H. apply Z.mod_small. lia. Qed.

Lemma malloc_not_on_path (h : gmap loc message) (p : option loc) (ls : list loc) :
  path h p ls -> malloc h ∉ ls.
Proof.
  intros Hp Hin. destruct (path_allocated _ _ _ _ Hp Hin) as [m Hm].
  rewrite malloc_fresh in Hm. discriminate Hm.
Qed.

Lemma chain_init (mem : memory) : chain (queue_init mem) [].
Proof. unfold chain, UINT_MAX. cbn. repeat split. lia. Qed.

(** [queue_put] appends the new node to the list, as long as the counter
    has room. *)
Lemma chain_put (mem : memory) (ls : list loc) (s : Z) :
  chain mem ls -> q_length (q mem) < UINT_MAX ->
  exists mem',
    queue_put malloc mem s = Some mem' /\
    chain mem' (ls ++ [malloc (heap mem)]) /\
    map (sock_at (heap mem')) (ls ++ [malloc (heap mem)])
    = map (sock_at (heap mem)) ls ++ [s].
Proof.
  intros (Hp & Hlen & Hmax & Hlast) Hroom.
  pose proof (malloc_not_on_path _ _ _ Hp) as Hfresh.
  unfold queue_put. set (pmsg := malloc (heap mem)) in *.
  assert (Hu : uint (q_length (q mem) + 1) = Z.of_nat (List.length (ls ++ [pmsg]))).
  { rewrite length_app. cbn. rewrite uint_small by lia. lia. }
  destruct ls as [|l0 ls0].
  - cbn in Hlen. rewrite Hlen. cbn [Z.eqb].
    eexists. split; [reflexivity|]. split.
    + unfold chain. cbn [heap q q_first q_length q_last].
      split; [|split; [|split]].
      * cbn. split; [reflexivity|]. eexists. split; [apply lookup_insert_eq|reflexivity].
      * rewrite Hlen in Hu. exact Hu.
      * rewrite Hlen in *. rewrite uint_small by (unfold UINT_MAX; lia).
        unfold UINT_MAX. lia.
      * reflexivity.
    + cbn. unfold sock_at. rewrite lookup_insert_eq. reflexivity.
  - destruct (Z.eqb_spec (q_length (q mem)) 0) as [E|_]; [cbn in Hlen; lia|].
    destruct (last (l0 :: ls0)) as [l|] eqn:Hl;
      [|apply last_None in Hl; discriminate Hl].
    rewrite Hlast.
    assert (Hin : l ∈ l0 :: ls0) by (apply last_Some_elem_of; exact Hl).
    destruct (path_allocated _ _ _ _ Hp Hin) as [msg Hmsg].
    assert (Hne : pmsg <> l) by (intros ->; contradiction).
    rewrite lookup_insert_ne by exact Hne. rewrite Hmsg.
    eexists. split; [reflexivity|]. split.
    + unfold chain. cbn [heap q q_first q_length q_last].
      split; [|split; [|split]].
      * apply path_snoc; try assumption. reflexivity.
      * exact Hu.
      * rewrite Hu, length_app. cbn [List.length] in *. unfold UINT_MAX in *. lia.
      * rewrite last_snoc. reflexivity.
    + cbn [heap]. rewrite map_app. f_equal.
      * apply map_ext_in. intros x Hx. apply list_elem_of_In in Hx.
        unfold sock_at. destruct (decide (x = l)) as [->|Hxl].
        -- rewrite lookup_insert_eq, Hmsg. reflexivity.
        -- rewrite !lookup_insert_ne; [reflexivity| |congruence].
           intros <-. contradiction.
      * cbn. unfold sock_at.
        rewrite lookup_insert_ne by congruence. rewrite lookup_insert_eq. reflexivity.
Qed.

(** [queue_get] on a queue that is not empty returns the socket of the
    first node and leaves the rest of the list. *)
Lemma chain_get (mem : memory) (l : loc) (ls : list loc) :
  chain mem (l :: ls) ->
  exists mem',
    queue_get mem = Returns (sock_at (heap mem) l) mem' /\
    chain mem' ls /\
    map (sock_at (heap mem')) ls = map (sock_at (heap mem)) ls.
Proof.
  intros (Hp & Hlen & Hmax & Hlast).
  pose proof (path_NoDup _ _ _ Hp) as Hnd. apply NoDup_cons in Hnd as [Hl Hnd].
  destruct Hp as [Hfirst (msg & Hmsg & Hp)].
  unfold queue_get. cbn [List.length] in Hlen.
  destruct (Z.eqb_spec (q_length (q mem)) 0) as [E|_]; [lia|].
  rewrite Hfirst, Hmsg. unfold sock_at. rewrite Hmsg.
  eexists. split; [reflexivity|]. split.
  - unfold chain. cbn [heap q q_first q_length q_last].
    split; [|split; [|split]].
    + apply (path_frame (heap mem)); [|exact Hp].
      intros x Hx. apply lookup_delete_ne. intros <-. contradiction.
    + rewrite uint_small by lia. lia.
    + rewrite uint_small by lia. lia.
    + destruct ls as [|y ls].
      * cbn in Hlen. rewrite Hlen. reflexivity.
      * destruct (Z.eqb_spec (q_length (q mem)) 1) as [E|_]; [cbn in Hlen; lia|].
        rewrite Hlast. apply last_cons_cons.
  - cbn [heap]. apply map_ext_in. intros x Hx. apply list_elem_of_In in Hx.
    rewrite lookup_delete_ne; [reflexivity|]. intros <-. contradiction.
Qed.

Lemma chain_empty_blocks (mem : memory) : chain mem [] -> queue_get mem = Blocks.
Proof. intros (_ & Hlen & _). unfold queue_get. rewrite Hlen. reflexivity. Qed.

(** The list and its counter agree on emptiness with the two pointers. *)
Lemma chain_inv (mem : memory) (ls : list loc) : chain mem ls -> queue_inv mem.
Proof.
  intros H. split; [|exists ls; exact H].
  destruct H as (Hp & Hlen & _ & Hlast). destruct ls as [|l ls].
  - cbn in Hp, Hlen, Hlast. tauto.
  - destruct Hp as [Hfirst _]. cbn [List.length] in Hlen. split.
    + lia.
    + intros [E _]. congruence.
Qed.

(** A history that can happen, started with [socks] in the queue, returns
    the oldest sockets first and leaves the others in the queue. *)
Lemma run_fifo (ops : list op) :
  forall (mem : memory) (socks : list Z),
    holds mem socks ->
    admissible (Z.of_nat (List.length socks)) ops = true ->
    exists mem',
      run malloc ops mem = Some (take (gets_of ops) (socks ++ puts ops), mem') /\
      holds mem' (drop (gets_of ops) (socks ++ puts ops)).
Proof.
  induction ops as [|[s|] ops IH]; intros mem socks (ls & Hc & Hs) Hadm.
  - exists mem. cbn. rewrite app_nil_r. split; [reflexivity|]. now exists ls.
  - cbn [admissible] in Hadm. apply andb_prop in Hadm as [Hroom Hadm].
    apply Z.ltb_lt in Hroom.
    assert (Hlen : List.length socks = List.length ls)
      by (rewrite <- Hs; apply length_map).
    destruct (chain_put mem ls s Hc) as (mem1 & Hput & Hc1 & Hs1).
    { destruct Hc as (_ & -> & _). lia. }
    destruct (IH mem1 (socks ++ [s])) as (mem' & Hrun & Hh).
    + eexists. split; [exact Hc1|]. rewrite Hs1, Hs. reflexivity.
    + rewrite length_app. cbn [List.length].
      replace (Z.of_nat (List.length socks + 1)) with (Z.of_nat (List.length socks) + 1)
        by lia. exact Hadm.
    + exists mem'. cbn [run gets_of puts]. rewrite Hput.
      rewrite <- app_assoc in Hrun, Hh. split; assumption.
  - cbn [admissible] in Hadm. apply andb_prop in Hadm as [Hsome Hadm].
    apply Z.ltb_lt in Hsome.
    destruct ls as [|l ls]; [subst socks; cbn in Hsome; lia|].
    destruct (chain_get mem l ls Hc) as (mem1 & Hget & Hc1 & Hs1).
    cbn [map] in Hs. subst socks.
    destruct (IH mem1 (map (sock_at (heap mem)) ls)) as (mem' & Hrun & Hh).
    + exists ls. split; assumption.
    + cbn [List.length] in Hadm.
      replace (Z.of_nat (S (List.length (map (sock_at (heap mem)) ls))) - 1)
        with (Z.of_nat (List.length (map (sock_at (heap mem)) ls))) in Hadm by lia.
      exact Hadm.
    + exists mem'. cbn [run gets_of puts]. rewrite Hget, Hrun. split; [reflexivity|].
      exact Hh.
Qed.
End Queue_facts.

Lemma first_free_fresh (h : gmap Pool.loc Pool.message) : h !! first_free h = None.
Proof. apply not_elem_of_dom. unfold first_free. apply is_fresh. Qed.

(** C7: in every history of queue_put and queue_get calls on the queue made
    by queue_init, the calls of queue_get return the sockets in the order in
    which they were put: the Nth queue_get returns the socket of the Nth
    queue_put.  What was put and not yet returned is in the queue, once
    each and in order, so no socket is lost or handed out twice.  A history
    is one that can happen: no queue_get is admitted while the queue is
    empty, and the number of waiting sockets stays within the unsigned int
    that counts them. *)
Theorem queue_is_fifo (malloc : gmap Pool.loc Pool.message -> Pool.loc)
    (malloc_fresh : forall h : gmap Pool.loc Pool.message, h !! malloc h = None)
    (mem0 : Pool.memory) (ops : list Pool.op) :
  Pool.admissible 0 ops = true ->
  exists mem,
    Pool.run malloc ops (Pool.queue_init mem0)
      = Some (take (Pool.gets_of ops) (Pool.puts ops), mem) /\
    Pool.holds mem (drop (Pool.gets_of ops) (Pool.puts ops)).
Proof.
  intros Hadm.
  apply (run_fifo malloc malloc_fresh ops (Pool.queue_init mem0) []); [|exact Hadm].
  exists []. split; [apply chain_init|reflexivity].
Qed.

Lemma queue_is_fifo_witness :
  exists mem,
    Pool.run first_free
      [Pool.Put 4; Pool.Put 9; Pool.Get; Pool.Put 1; Pool.Get; Pool.Put 6]
      (Pool.queue_init fresh_memory) = Some ([4; 9], mem) /\
    Pool.holds mem [1; 6].
Proof.
  apply (queue_is_fifo first_free first_free_fresh fresh_memory
           [Pool.Put 4; Pool.Put 9; Pool.Get; Pool.Put 1; Pool.Get; Pool.Put 6]).
  reflexivity.
Defined.

(** C8: the structural invariant of the queue (length is 0 exactly when
    first and last are both NULL; the list from first has exactly length
    nodes and ends at last) holds after queue_init, is kept by every
    queue_put that finds room in the counter, and is kept by every
    queue_get; on a queue that satisfies it neither call faults, and
    queue_get waits exactly when length is 0. *)
Theorem queue_invariant (malloc : gmap Pool.loc Pool.message -> Pool.loc)
    (malloc_fresh : forall h : gmap Pool.loc Pool.message, h !! malloc h = None) :
  (forall mem, Pool.queue_inv (Pool.queue_init mem)) /\
  (forall mem clntSock,
     Pool.queue_inv mem -> Pool.q_length (Pool.q mem) < Pool.UINT_MAX ->
     exists mem', Pool.queue_put malloc mem clntSock = Some mem' /\
                  Pool.queue_inv mem') /\
  (forall mem,
     Pool.queue_inv mem ->
     match Pool.queue_get mem with
     | Pool.Returns _ mem' => Pool.queue_inv mem'
     | Pool.Blocks => Pool.q_length (Pool.q mem) = 0
     | Pool.Faults => False
     end).
Proof.
  split; [|split].
  - intros mem. exact (chain_inv _ _ (chain_init mem)).
  - intros mem s [_ [ls Hc]] Hroom.
    destruct (chain_put malloc malloc_fresh mem ls s Hc Hroom) as (mem' & Hput & Hc' & _).
    exists mem'. split; [exact Hput|exact (chain_inv _ _ Hc')].
  - intros mem [_ [[|l ls] Hc]].
    + rewrite (chain_empty_blocks _ Hc). destruct Hc as (_ & Hlen & _). exact Hlen.
    + destruct (chain_get mem l ls Hc) as (mem' & -> & Hc' & _).
      exact (chain_inv _ _ Hc').
Qed.

Lemma queue_invariant_witness :
  Pool.queue_inv (Pool.queue_init fresh_memory) /\
  (exists mem', Pool.queue_put first_free (Pool.queue_init fresh_memory) 4 = Some mem' /\
                Pool.queue_inv mem') /\
  Pool.q_length (Pool.q (Pool.queue_init fresh_memory)) = 0.
Proof.
  destruct (queue_invariant first_free first_free_fresh) as (Hinit & Hput & Hget).
  split; [exact (Hinit fresh_memory)|]. split.
  - apply Hput; [exact (Hinit fresh_memory)|reflexivity].
  - exact (Hget _ (Hinit fresh_memory)).
Defined.

(** * Further properties of the code *)

(** ** The URI test, exactly *)

Lemma nul_free_advance (n : nat) (s : string) : nul_free s -> nul_free (advance n s).
Proof.
  revert s. induction n as [|n IH]; intros [|c s] H; try exact H.
  cbn [advance]. apply IH. exact (nul_free_tail _ _ H).
Qed.

(** The test on the request URI fires on the URIs that contain [/../] or end
    with [/..], and on no others. *)
Lemma traversal_iff (uri : string) :
  nul_free uri ->
  (traversal uri = true <-> contains uri "/../" \/ ends_with uri "/..").
Proof.
  intros Hnf. split; [|apply traversal_catches].
  unfold traversal. destruct (3 <=? String.length uri)%nat; [|discriminate].
  intros H. apply orb_prop in H as [H|H].
  - right. apply Z.eqb_eq, strcmp_zero in H.
    rewrite (nul_free_advance _ _ Hnf) in H. change (c_str "/..") with "/.."%string in H.
    exists (fread (String.length uri - 3) uri). rewrite <- H. symmetry.
    apply fread_advance.
  - left. exact (strstr_sound _ _ H).
Qed.

(** X20: the test that guards against leaving the document root fires on
    the URIs that contain "/../" or end with "/..", and on no others; a URI
    such as /..a or /a.. passes it. *)
Theorem traversal_exact (uri : string) :
  nul_free uri ->
  (traversal uri = true <-> contains uri "/../" \/ ends_with uri "/..").
Proof. exact (traversal_iff uri). Qed.

Lemma traversal_exact_witness :
  traversal "/a/../b" = true /\
  (contains "/a/.." "/../" \/ ends_with "/a/.." "/..").
Proof.
  split.
  - apply (proj2 (traversal_exact "/a/../b" eq_refl)). left.
    exists "/a", "b". reflexivity.
  - apply (proj1 (traversal_exact "/a/.." eq_refl)). reflexivity.
Defined.

(** URIs with two dots that are no path segment pass the test. *)
Lemma traversal_lets_dots_pass :
  traversal "/..a" = false /\ traversal "/a.." = false /\ traversal "/.." = true.
Proof. repeat split. Qed.

(** ** Well-formed requests *)

Section Lifecycle_more.
Context {St : Type}.
Variable sendStatusLine : Z -> St -> St.
Variable handleFileRequest : string -> string -> St -> Z * St.

(** A well-formed request reaches [handleFileRequest] with its URI; what is
    answered is what that function answers, whatever the headers were. *)
Lemma request_asks (webRoot : string) (clntFp : stream) (uri : string) (st : St) :
  asks_for clntFp uri ->
  exists ver,
    request sendStatusLine handleFileRequest webRoot clntFp st =
      Some {| method := Some "GET"; requestURI := Some uri; httpVersion := Some ver;
              statusCode := fst (handleFileRequest webRoot uri st);
              final := snd (handleFileRequest webRoot uri st) |}.
Proof.
  intros (line & ver & rest & rest' & E & F & Hver & [r ->] & Hc & He & Hh).
  exists ver.
  apply (request_accepts _ _ _ _ rest rest' _ _ _ _ E F Hver eq_refl); [|exact Hh].
  destruct (traversal ("/" +:+ r)) eqn:T; [|reflexivity].
  apply traversal_iff in T; [tauto|].
  pose proof (fields_nul_free _ (c_str_nul_free line)) as Hnf. rewrite F in Hnf.
  inversion Hnf as [|? ? _ Hnf1]; subst. inversion Hnf1; subst. assumption.
Qed.

(** A [GET] request in a supported version whose URI does not begin with a
    slash is answered with 400. *)
Lemma request_no_slash (webRoot : string) (clntFp rest : stream)
    (requestLine uri ver : string) (st : St) :
  fgets 1000 clntFp = Some (requestLine, rest) ->
  fields (c_str requestLine) = ["GET"; uri; ver] ->
  ver = "HTTP/1.0" \/ ver = "HTTP/1.1" ->
  (forall r, uri <> "/" +:+ r) ->
  request sendStatusLine handleFileRequest webRoot clntFp st =
    Some {| method := Some "GET"; requestURI := Some uri; httpVersion := Some ver;
            statusCode := 400; final := sendStatusLine 400 st |}.
Proof.
  intros E F Hver Hno. rewrite (request_by_fields _ _ _ _ _ _ _ E), F. cbv zeta.
  cbn [lookup list_lookup].
  assert (Hd : Ascii.eqb (deref uri) "/" = false).
  { destruct uri as [|c r]; [reflexivity|]. cbn [deref].
    destruct (Ascii.eqb_spec c "/") as [->|]; [|reflexivity].
    destruct (Hno r). reflexivity. }
  rewrite Hd. destruct Hver as [-> | ->]; reflexivity.
Qed.

(** A [GET] request that passes the checks on its first line, on an input
    that ends before an empty line, ends with 400 and sends nothing. *)
Lemma request_headers_cut (webRoot : string) (clntFp rest : stream)
    (requestLine uri ver : string) (st : St) :
  fgets 1000 clntFp = Some (requestLine, rest) ->
  fields (c_str requestLine) = ["GET"; uri; ver] ->
  ver = "HTTP/1.0" \/ ver = "HTTP/1.1" ->
  (exists r, uri = "/" +:+ r) ->
  traversal uri = false ->
  skip_headers (S (String.length (pending rest))) rest = Closed ->
  request sendStatusLine handleFileRequest webRoot clntFp st =
    Some {| method := Some "GET"; requestURI := Some uri; httpVersion := Some ver;
            statusCode := 400; final := st |}.
Proof.
  intros E F Hver [r ->] Htr Hh. rewrite (request_by_fields _ _ _ _ _ _ _ E), F.
  cbv zeta. cbn [lookup list_lookup]. rewrite Htr, Hh.
  destruct Hver as [-> | ->]; reflexivity.
Qed.
End Lifecycle_more.

(** X4: a GET request in a supported version whose URI does not begin with a
    slash ends with status 400 and the 400 page is what is sent, in the child
    process and in the worker thread. *)
Theorem uri_without_slash_is_400 (m : Fork.machine) (fs : filesys)
    (webRoot : string) (pid : Z) (c : connection) (a : Fork.reqstat)
    (requestLine uri ver : string) (rest : stream) :
  fgets 1000 (input c) = Some (requestLine, rest) ->
  fields (c_str requestLine) = ["GET"; uri; ver] ->
  ver = "HTTP/1.0" \/ ver = "HTTP/1.1" ->
  (forall r, uri <> "/" +:+ r) ->
  (exists o log, Fork.main_child m webRoot pid c a = Some (o, log) /\
     statusCode o = 400 /\
     Fork.sent (final o) = [error_page "400" "Bad Request"] /\
     Fork.area (final o) = Fork.add_four a) /\
  (exists o log, Pool.thr_worker fs webRoot c = Some (o, log) /\
     statusCode o = 400 /\
     final o = [error_page "400" "Bad Request"]).
Proof.
  intros E F Hver Hno. split.
  - unfold Fork.main_child.
    rewrite (request_no_slash Fork.sendStatusLine (Fork.handleFileRequest m)
               webRoot _ _ _ _ _ _ E F Hver Hno).
    do 2 eexists. split; [reflexivity|]. repeat split; reflexivity.
  - unfold Pool.thr_worker.
    rewrite (request_no_slash Pool.sendStatusLine (Pool.handleFileRequest fs)
               webRoot _ _ _ _ _ _ E F Hver Hno).
    do 2 eexists. split; [reflexivity|]. split; reflexivity.
Qed.

Lemma uri_without_slash_is_400_witness :
  let c := client ("GET index.html HTTP/1.0" +:+ crlf +:+ crlf) in
  (exists o log, Fork.main_child plain_machine "/srv" 4242 c Fork.area_init
                 = Some (o, log) /\
     statusCode o = 400 /\
     Fork.sent (final o) = [error_page "400" "Bad Request"] /\
     Fork.area (final o) = Fork.add_four Fork.area_init) /\
  (exists o log, Pool.thr_worker no_files "/srv" c = Some (o, log) /\
     statusCode o = 400 /\
     final o = [error_page "400" "Bad Request"]).
Proof.
  cbv zeta.
  apply (uri_without_slash_is_400 plain_machine no_files "/srv" 4242
           (client ("GET index.html HTTP/1.0" +:+ crlf +:+ crlf)) Fork.area_init
           ("GET index.html HTTP/1.0" +:+ crlf) "index.html" "HTTP/1.0"
           {| pending := crlf; broken := false |}).
  - vm_compute. reflexivity.
  - vm_compute. reflexivity.
  - left. reflexivity.
  - intros r H. discriminate H.
Defined.

(** X5: when the first line passes all checks but the input ends before an
    empty line was read, the lifecycle ends with status 400, hands nothing
    to send, leaves the counters as they were, and logs the request line it
    had read. *)
Theorem cut_headers_are_400_unanswered (m : Fork.machine) (fs : filesys)
    (webRoot : string) (pid : Z) (c : connection) (a : Fork.reqstat)
    (requestLine uri ver : string) (rest : stream) :
  fgets 1000 (input c) = Some (requestLine, rest) ->
  fields (c_str requestLine) = ["GET"; uri; ver] ->
  ver = "HTTP/1.0" \/ ver = "HTTP/1.1" ->
  (exists r, uri = "/" +:+ r) ->
  ~ contains uri "/../" -> ~ ends_with uri "/.." ->
  skip_headers (S (String.length (pending rest))) rest = Closed ->
  (exists o log, Fork.main_child m webRoot pid c a = Some (o, log) /\
     statusCode o = 400 /\ Fork.sent (final o) = [] /\ Fork.area (final o) = a /\
     method o = Some "GET" /\ requestURI o = Some uri /\ httpVersion o = Some ver) /\
  (exists o log, Pool.thr_worker fs webRoot c = Some (o, log) /\
     statusCode o = 400 /\ final o = [] /\
     method o = Some "GET" /\ requestURI o = Some uri /\ httpVersion o = Some ver).
Proof.
  intros E F Hver Hs Hc He Hh.
  assert (Htr : traversal uri = false).
  { destruct (traversal uri) eqn:T; [|reflexivity].
    apply traversal_iff in T; [tauto|].
    pose proof (fields_nul_free _ (c_str_nul_free requestLine)) as Hnf.
    rewrite F in Hnf. inversion Hnf as [|? ? _ Hnf1]; subst.
    inversion Hnf1; subst. assumption. }
  split.
  - unfold Fork.main_child.
    rewrite (request_headers_cut Fork.sendStatusLine (Fork.handleFileRequest m)
               webRoot _ _ _ _ _ _ E F Hver Hs Htr Hh).
    do 2 eexists. split; [reflexivity|]. cbn. tauto.
  - unfold Pool.thr_worker.
    rewrite (request_headers_cut Pool.sendStatusLine (Pool.handleFileRequest fs)
               webRoot _ _ _ _ _ _ E F Hver Hs Htr Hh).
    do 2 eexists. split; [reflexivity|]. cbn. tauto.
Qed.

Lemma cut_headers_are_400_unanswered_witness :
  let c := client ("GET /index.html HTTP/1.1" +:+ crlf +:+ "Host: example" +:+ crlf) in
  (exists o log, Fork.main_child one_file_machine "/srv" 4242 c Fork.area_init
                 = Some (o, log) /\
     statusCode o = 400 /\ Fork.sent (final o) = [] /\
     Fork.area (final o) = Fork.area_init /\
     method o = Some "GET" /\ requestURI o = Some "/index.html" /\
     httpVersion o = Some "HTTP/1.1") /\
  (exists o log, Pool.thr_worker one_file "/srv" c = Some (o, log) /\
     statusCode o = 400 /\ final o = [] /\
     method o = Some "GET" /\ requestURI o = Some "/index.html" /\
     httpVersion o = Some "HTTP/1.1").
Proof.
  cbv zeta.
  apply (cut_headers_are_400_unanswered one_file_machine one_file "/srv" 4242
           (client ("GET /index.html HTTP/1.1" +:+ crlf +:+ "Host: example" +:+ crlf))
           Fork.area_init
           ("GET /index.html HTTP/1.1" +:+ crlf) "/index.html" "HTTP/1.1"
           {| pending := "Host: example" +:+ crlf; broken := false |}).
  - vm_compute. reflexivity.
  - vm_compute. reflexivity.
  - right. reflexivity.
  - exists "index.html". reflexivity.
  - intros H. apply strstr_contains in H. vm_compute in H. discriminate H.
  - intros H. assert (T : traversal "/index.html" = true)
      by (apply traversal_catches; now right).
    vm_compute in T. discriminate T.
  - vm_compute. reflexivity.
Defined.

Lemma asks_for_nul_free (clntFp : stream) (uri : string) :
  asks_for clntFp uri -> nul_free uri.
Proof.
  intros (line & ver & rest & rest' & _ & F & _).
  pose proof (fields_nul_free _ (c_str_nul_free line)) as Hnf. rewrite F in Hnf.
  inversion Hnf as [|? ? _ Hnf1]; subst. inversion Hnf1; subst. assumption.
Qed.

(** The comparison with the array [statistics] succeeds on exactly one URI:
    the array's characters followed by the bytes behind it up to the first
    zero byte. *)
Lemma statistics_strcmp (m : Fork.machine) (uri : string) :
  nul_free uri ->
  (strcmp (c_str (Fork.statistics +:+ Fork.behind_statistics m)) uri =? 0)
  = bool_decide (uri = Fork.statistics +:+ c_str (Fork.behind_statistics m)).
Proof.
  intros Hnf. rewrite c_str_append by reflexivity.
  destruct (Z.eqb_spec
              (strcmp (Fork.statistics +:+ c_str (Fork.behind_statistics m)) uri) 0)
    as [H|H]; rewrite strcmp_zero, Hnf in H.
  - rewrite c_str_append, (c_str_nul_free (Fork.behind_statistics m)) in H by reflexivity.
    now rewrite bool_decide_eq_true_2.
  - rewrite bool_decide_eq_false_2; [reflexivity|]. intros ->. apply H.
    rewrite c_str_append by reflexivity.
    now rewrite (c_str_nul_free (Fork.behind_statistics m)).
Qed.

(** ** Files *)

(** X1: a well-formed GET for a path that is no directory and can be opened
    is answered by the worker thread with status 200; when no send comes
    back short, the bytes handed to send are the status line "HTTP/1.0 200
    OK", an empty line and then the file, byte for byte. *)
Theorem worker_serves_file (fs : filesys) (webRoot : string) (c : connection)
    (uri data : string) :
  asks_for (input c) uri ->
  is_dir fs (resolve webRoot uri) = false ->
  fopen fs (resolve webRoot uri) = Some data ->
  exists o log,
    Pool.thr_worker fs webRoot c = Some (o, log) /\
    statusCode o = 200 /\
    ((forall i, send_ok fs i = true) ->
     String.concat EmptyString (final o) = ok_head +:+ data).
Proof.
  intros Hask Hd Ho.
  destruct (request_asks Pool.sendStatusLine (Pool.handleFileRequest fs)
              webRoot _ _ [] Hask) as [ver Hr].
  unfold Pool.thr_worker. rewrite Hr. unfold Pool.handleFileRequest.
  rewrite Hd, Ho. do 2 eexists. split; [reflexivity|]. split; [reflexivity|].
  intros Hok.
  cbn [final snd]. change (Pool.sendStatusLine 200 []) with [ok_head].
  cbn [app]. rewrite concat_cons, send_file_whole by exact Hok. reflexivity.
Qed.

Lemma worker_serves_file_witness :
  exists o log,
    Pool.thr_worker one_file "/srv"
      (client ("GET / HTTP/1.0" +:+ crlf +:+ "Host: example" +:+ crlf +:+ crlf))
      = Some (o, log) /\
    statusCode o = 200 /\
    String.concat EmptyString (final o) = ok_head +:+ "<p>hello</p>".
Proof.
  destruct (worker_serves_file one_file "/srv"
              (client ("GET / HTTP/1.0" +:+ crlf +:+ "Host: example" +:+ crlf +:+ crlf))
              "/" "<p>hello</p>") as (o & log & E & Hs & Hb);
    [| reflexivity | reflexivity
     | exists o, log; split; [exact E|]; split; [exact Hs|]; apply Hb; reflexivity].
  exists ("GET / HTTP/1.0" +:+ crlf), "HTTP/1.0",
    {| pending := "Host: example" +:+ crlf +:+ crlf; broken := false |},
    {| pending := EmptyString; broken := false |}.
  split; [vm_compute; reflexivity|]. split; [vm_compute; reflexivity|].
  split; [now left|]. split; [exists EmptyString; reflexivity|].
  split; [intros H; apply strstr_contains in H; vm_compute in H; discriminate H|].
  split; [|vm_compute; reflexivity].
  intros H. assert (T : traversal "/" = true) by (apply traversal_catches; now right).
  vm_compute in T. discriminate T.
Defined.

(** X2: the child process answers the same request with status 200 and
    counts it as one 2xx response, unless the URI is the one that matches
    the statistics array; when no send comes back short, the bytes handed to
    send are again the 200 status line, an empty line and then the file. *)
Theorem child_serves_file (m : Fork.machine) (webRoot : string) (pid : Z)
    (c : connection) (a : Fork.reqstat) (uri data : string) :
  asks_for (input c) uri ->
  uri <> Fork.statistics +:+ c_str (Fork.behind_statistics m) ->
  is_dir (Fork.disk m) (resolve webRoot uri) = false ->
  fopen (Fork.disk m) (resolve webRoot uri) = Some data ->
  exists o log,
    Fork.main_child m webRoot pid c a = Some (o, log) /\
    statusCode o = 200 /\
    Fork.area (final o) = Fork.add_two a /\
    ((forall i, send_ok (Fork.disk m) i = true) ->
     String.concat EmptyString (Fork.sent (final o)) = ok_head +:+ data).
Proof.
  intros Hask Hne Hd Ho.
  destruct (request_asks Fork.sendStatusLine (Fork.handleFileRequest m)
              webRoot _ _ {| Fork.sent := []; Fork.area := a |} Hask) as [ver Hr].
  unfold Fork.main_child. rewrite Hr. unfold Fork.handleFileRequest.
  rewrite (statistics_strcmp m uri (asks_for_nul_free _ _ Hask)).
  rewrite bool_decide_eq_false_2 by exact Hne. rewrite Hd, Ho.
  do 2 eexists. split; [reflexivity|]. split; [reflexivity|].
  cbn [final snd Fork.sent Fork.area]. split; [reflexivity|]. intros Hok.
  change (Fork.sent (Fork.sendStatusLine 200 {| Fork.sent := []; Fork.area := a |}))
    with [ok_head].
  cbn [app]. rewrite concat_cons, send_file_whole by exact Hok. reflexivity.
Qed.

Lemma child_serves_file_witness :
  exists o log,
    Fork.main_child one_file_machine "/srv" 4242
      (client ("GET /index.html HTTP/1.1" +:+ crlf +:+ crlf)) three_and_one
      = Some (o, log) /\
    statusCode o = 200 /\
    Fork.area (final o) = Fork.add_two three_and_one /\
    String.concat EmptyString (Fork.sent (final o)) = ok_head +:+ "<p>hello</p>".
Proof.
  destruct (child_serves_file one_file_machine "/srv" 4242
              (client ("GET /index.html HTTP/1.1" +:+ crlf +:+ crlf)) three_and_one
              "/index.html" "<p>hello</p>") as (o & log & E & Hs & Ha & Hb);
    [| | reflexivity | reflexivity
     | exists o, log; split; [exact E|]; split; [exact Hs|]; split; [exact Ha|];
       apply Hb; reflexivity].
  - exists ("GET /index.html HTTP/1.1" +:+ crlf), "HTTP/1.1",
      {| pending := crlf; broken := false |},
      {| pending := EmptyString; broken := false |}.
    split; [vm_compute; reflexivity|]. split; [vm_compute; reflexivity|].
    split; [now right|]. split; [exists "index.html"; reflexivity|].
    split; [intros H; apply strstr_contains in H; vm_compute in H; discriminate H|].
    split; [|vm_compute; reflexivity].
    intros H. assert (T : traversal "/index.html" = true)
      by (apply traversal_catches; now right).
    vm_compute in T. discriminate T.
  - vm_compute. discriminate.
Defined.

Lemma fread_length (n : nat) (s : string) : (String.length (fread n s) <= n)%nat.
Proof.
  revert s. induction n as [|n IH]; intros [|c r]; cbn; try lia.
  specialize (IH r). lia.
Qed.

Lemma send_blocks_sound (fs : filesys) (size fuel : nat) :
  forall (k : nat) (data : string),
    (0 < size)%nat ->
    (exists rest,
       data = String.concat EmptyString (send_blocks size fuel fs k data) +:+ rest) /\
    Forall (fun block => (0 < String.length block <= size)%nat)
           (send_blocks size fuel fs k data).
Proof.
  induction fuel as [|fuel IH]; intros k data Hsize.
  - split; [exists data; reflexivity|constructor].
  - destruct data as [|c r]; [split; [exists EmptyString; reflexivity|constructor]|].
    cbn [send_blocks].
    assert (Hblock : (0 < String.length (fread size (String c r)) <= size)%nat).
    { split; [|apply fread_length]. destruct size; [lia|]. cbn. lia. }
    destruct (send_ok fs k).
    + destruct (IH (S k) (advance size (String c r)) Hsize) as [[rest Hrest] Hall].
      split; [|constructor; assumption].
      exists rest. rewrite concat_cons, append_assoc, <- Hrest.
      symmetry. apply fread_advance.
    + split; [|constructor; [exact Hblock|constructor]].
      exists (advance size (String c r)). rewrite concat_cons.
      change (String.concat EmptyString []) with EmptyString.
      rewrite append_assoc. symmetry. apply fread_advance.
Qed.

Lemma send_blocks_abort (fs : filesys) (size fuel : nat) (j : nat) :
  send_ok fs j = false ->
  forall (k : nat) (data : string),
    (k <= j)%nat ->
    (List.length (send_blocks size fuel fs k data) <= S j - k)%nat.
Proof.
  intros Hj. induction fuel as [|fuel IH]; intros k data Hk; [cbn; lia|].
  destruct data as [|c r]; [cbn; lia|]. cbn [send_blocks].
  destruct (send_ok fs k) eqn:E; [|cbn; lia].
  assert (k <> j) by congruence.
  cbn [List.length]. specialize (IH (S k) (advance size (String c r))). lia.
Qed.

(** X3: the transfer of a file never hands to send anything but the file's
    own bytes in order: the blocks are not empty, hold at most 4096 bytes,
    and put together are a prefix of the file.  Once a send comes back short
    the transfer stops: if the send of block j fails, at most j + 1 blocks
    are handed over. *)
Theorem send_file_sound (fs : filesys) (data : string) :
  (exists rest, data = String.concat EmptyString (send_file fs data) +:+ rest) /\
  Forall (fun block => (0 < String.length block <= 4096)%nat) (send_file fs data) /\
  (forall j, send_ok fs j = false ->
             (List.length (send_file fs data) <= S j)%nat).
Proof.
  destruct (send_blocks_sound fs DISK_IO_BUF_SIZE (String.length data) 0 data)
    as [Hp Hall]; [apply Nat.lt_0_succ|].
  split; [exact Hp|]. split; [exact Hall|].
  intros j Hj.
  pose proof (send_blocks_abort fs DISK_IO_BUF_SIZE (String.length data) j Hj 0 data).
  unfold send_file. lia.
Qed.

(** ** Directories and the default document *)

Lemma last_char_snoc (a : string) (c : ascii) :
  last_char (a +:+ String c EmptyString) = Some c.
Proof. rewrite last_char_append. reflexivity. Qed.

Lemma last_char_ends (s : string) (c : ascii) :
  last_char s = Some c -> ends_with s (String c EmptyString).
Proof.
  induction s as [|d s IH]; [discriminate|].
  destruct s as [|e s'].
  - cbn. intros [= ->]. exists EmptyString. reflexivity.
  - intros H. destruct (IH H) as [a Ha]. exists (String d a). rewrite Ha. reflexivity.
Qed.

Lemma last_char_append_r (a b : string) :
  b <> EmptyString -> last_char (a +:+ b) = last_char b.
Proof. destruct b as [|c b]; [contradiction|]. intros _. apply last_char_append. Qed.

(** X8: the path looked up is the document root followed by the URI; when
    the URI ends in a slash, "index.html" is appended, and otherwise nothing
    is. *)
Theorem resolve_index (webRoot uri : string) :
  (ends_with uri "/" -> resolve webRoot uri = webRoot +:+ uri +:+ "index.html") /\
  (uri <> EmptyString -> ~ ends_with uri "/" -> resolve webRoot uri = webRoot +:+ uri).
Proof.
  unfold resolve. split.
  - intros [a ->]. rewrite <- append_assoc, last_char_snoc. cbn [Ascii.eqb].
    rewrite !append_assoc. reflexivity.
  - intros Hne Hno. rewrite (last_char_append_r _ _ Hne).
    destruct (last_char uri) as [c|] eqn:E; [|reflexivity].
    destruct (Ascii.eqb_spec c "/") as [->|]; [|reflexivity].
    destruct Hno. exact (last_char_ends _ _ E).
Qed.

Lemma resolve_index_witness :
  resolve "/srv" "/docs/" = "/srv/docs/index.html"%string /\
  resolve "/srv" "/docs" = "/srv/docs"%string.
Proof.
  split.
  - apply (proj1 (resolve_index "/srv" "/docs/")). exists "/docs". reflexivity.
  - apply (proj2 (resolve_index "/srv" "/docs")); [discriminate|].
    intros [a H]. apply (f_equal last_char) in H.
    rewrite last_char_snoc in H. discriminate H.
Defined.

(** X6: a well-formed GET for a path that is a directory is refused by the
    worker thread: status 403, and the 403 page is all that is sent. *)
Theorem worker_refuses_directory (fs : filesys) (webRoot : string)
    (c : connection) (uri : string) :
  asks_for (input c) uri ->
  is_dir fs (resolve webRoot uri) = true ->
  exists o log,
    Pool.thr_worker fs webRoot c = Some (o, log) /\
    statusCode o = 403 /\
    final o = [error_page "403" "Forbidden"].
Proof.
  intros Hask Hd.
  destruct (request_asks Pool.sendStatusLine (Pool.handleFileRequest fs)
              webRoot _ _ [] Hask) as [ver Hr].
  unfold Pool.thr_worker. rewrite Hr. unfold Pool.handleFileRequest. rewrite Hd.
  do 2 eexists. split; [reflexivity|]. split; reflexivity.
Qed.

Lemma worker_refuses_directory_witness :
  exists o log,
    Pool.thr_worker one_file "/srv"
      (client ("GET /docs HTTP/1.0" +:+ crlf +:+ crlf)) = Some (o, log) /\
    statusCode o = 403 /\
    final o = [error_page "403" "Forbidden"].
Proof.
  apply (worker_refuses_directory one_file "/srv"
           (client ("GET /docs HTTP/1.0" +:+ crlf +:+ crlf)) "/docs");
    [|reflexivity].
  exists ("GET /docs HTTP/1.0" +:+ crlf), "HTTP/1.0",
    {| pending := crlf; broken := false |},
    {| pending := EmptyString; broken := false |}.
  split; [vm_compute; reflexivity|]. split; [vm_compute; reflexivity|].
  split; [now left|]. split; [exists "docs"; reflexivity|].
  split; [intros H; apply strstr_contains in H; vm_compute in H; discriminate H|].
  split; [|vm_compute; reflexivity].
  intros H. assert (T : traversal "/docs" = true)
    by (apply traversal_catches; now right).
  vm_compute in T. discriminate T.
Defined.

(** X7: the child process answers a well-formed GET for a directory (other
    than the statistics URI) with status 200 and counts one 2xx response,
    but what it hands to send is only the output of ls as list_directory
    read it: no status line and no empty line come before it. *)
Theorem child_lists_directory (m : Fork.machine) (webRoot : string) (pid : Z)
    (c : connection) (a : Fork.reqstat) (uri : string) :
  asks_for (input c) uri ->
  uri <> Fork.statistics +:+ c_str (Fork.behind_statistics m) ->
  is_dir (Fork.disk m) (resolve webRoot uri) = true ->
  exists o log,
    Fork.main_child m webRoot pid c a = Some (o, log) /\
    statusCode o = 200 /\
    Fork.sent (final o) = [c_str (Fork.ls_al m (resolve webRoot uri))] /\
    Fork.area (final o) = Fork.add_two a.
Proof.
  intros Hask Hne Hd.
  destruct (request_asks Fork.sendStatusLine (Fork.handleFileRequest m)
              webRoot _ _ {| Fork.sent := []; Fork.area := a |} Hask) as [ver Hr].
  unfold Fork.main_child. rewrite Hr. unfold Fork.handleFileRequest.
  rewrite (statistics_strcmp m uri (asks_for_nul_free _ _ Hask)).
  rewrite bool_decide_eq_false_2 by exact Hne. rewrite Hd.
  do 2 eexists. split; [reflexivity|]. repeat split.
Qed.

Lemma child_lists_directory_witness :
  exists o log,
    Fork.main_child one_file_machine "/srv" 4242
      (client ("GET /docs HTTP/1.0" +:+ crlf +:+ crlf)) Fork.area_init
      = Some (o, log) /\
    statusCode o = 200 /\
    Fork.sent (final o) = [c_str (Fork.ls_al one_file_machine (resolve "/srv" "/docs"))] /\
    Fork.area (final o) = Fork.add_two Fork.area_init.
Proof.
  apply (child_lists_directory one_file_machine "/srv" 4242
           (client ("GET /docs HTTP/1.0" +:+ crlf +:+ crlf)) Fork.area_init "/docs");
    [| vm_compute; discriminate | reflexivity].
  exists ("GET /docs HTTP/1.0" +:+ crlf), "HTTP/1.0",
    {| pending := crlf; broken := false |},
    {| pending := EmptyString; broken := false |}.
  split; [vm_compute; reflexivity|]. split; [vm_compute; reflexivity|].
  split; [now left|]. split; [exists "docs"; reflexivity|].
  split; [intros H; apply strstr_contains in H; vm_compute in H; discriminate H|].
  split; [|vm_compute; reflexivity].
  intros H. assert (T : traversal "/docs" = true)
    by (apply traversal_catches; now right).
  vm_compute in T. discriminate T.
Defined.

(** ** What is sent and what is logged *)

(** X10: for every status code the buffer of sendStatusLine is the status
    line with the reason phrase of getReasonPhrase and an empty line; for
    every code but 200 the HTML page naming the same code and reason
    follows. *)
Theorem status_buffer_format (code : Z) :
  status_buffer code =
    if code =? 200 then ok_head
    else error_page (show_int code) (show_str (getReasonPhrase code)).
Proof.
  destruct (Z.eqb_spec code 200) as [->|Hne]; [reflexivity|].
  unfold status_buffer, error_page, strcat.
  rewrite (proj2 (Z.eqb_neq code 200) Hne).
  change (sprintf "HTTP/1.0 %d " [PInt code])
    with ("HTTP/1.0 " +:+ show_int code +:+ " ").
  change (sprintf ("<html><body>" +:+ lf +:+ "<h1>%d %s</h1>" +:+ lf +:+
                   "</body></html>" +:+ lf)
                  [PInt code; PStr (getReasonPhrase code)])
    with ("<html><body>" +:+ lf +:+ "<h1>" +:+ show_int code +:+ " " +:+
          show_str (getReasonPhrase code) +:+ "</h1>" +:+ lf +:+
          "</body></html>" +:+ lf).
  rewrite !append_assoc. reflexivity.
Qed.

(** X9: whatever the worker thread sends starts with the status line of the
    status it logs.  A lifecycle either sends nothing and ends with 400, or
    its first buffer is the one sendStatusLine builds for its final status;
    only a 200 response has anything after that buffer; and the final status
    is one of 200, 400, 403, 404 and 501. *)
Theorem worker_sends_its_status (fs : filesys) (webRoot : string) (c : connection) :
  exists o log,
    Pool.thr_worker fs webRoot c = Some (o, log) /\
    ((statusCode o = 400 /\ final o = []) \/
     (exists more, final o = c_str (status_buffer (statusCode o)) :: more /\
                   (statusCode o <> 200 -> more = []) /\
                   (statusCode o = 200 \/ statusCode o = 400 \/ statusCode o = 403 \/
                    statusCode o = 404 \/ statusCode o = 501))).
Proof.
  unfold Pool.thr_worker.
  assert (Hsend : forall code mt u v, (code = 400 \/ code = 501) ->
            let o := {| method := mt; requestURI := u; httpVersion := v;
                        statusCode := code; final := Pool.sendStatusLine code [] |} in
            exists more, final o = c_str (status_buffer (statusCode o)) :: more /\
                   (statusCode o <> 200 -> more = []) /\
                   (statusCode o = 200 \/ statusCode o = 400 \/ statusCode o = 403 \/
                    statusCode o = 404 \/ statusCode o = 501)).
  { intros code mt u v Hc. cbv zeta. exists []. cbn. tauto. }
  destruct (fgets 1000 (input c)) as [[line rest]|] eqn:E.
  - rewrite (request_by_fields _ _ _ _ _ _ _ E). cbv zeta.
    destruct (fields (c_str line)) as [|mt [|uri [|ver [|extra ws]]]];
      try (do 2 eexists; split; [reflexivity|]; right; apply Hsend; tauto).
    destruct (negb (bool_decide (mt = "GET")));
      [do 2 eexists; split; [reflexivity|]; right; apply Hsend; tauto|].
    destruct (negb _ && negb _);
      [do 2 eexists; split; [reflexivity|]; right; apply Hsend; tauto|].
    destruct (negb (Ascii.eqb _ _));
      [do 2 eexists; split; [reflexivity|]; right; apply Hsend; tauto|].
    destruct (traversal uri);
      [do 2 eexists; split; [reflexivity|]; right; apply Hsend; tauto|].
    pose proof (skip_headers_finishes (S (String.length (pending rest))) rest) as Hf.
    destruct (skip_headers _ rest).
    + unfold Pool.handleFileRequest.
      destruct (is_dir fs _);
        [do 2 eexists; split; [reflexivity|]; right; exists []; cbn; tauto|].
      destruct (fopen fs _) as [data|];
        [|do 2 eexists; split; [reflexivity|]; right; exists []; cbn; tauto].
      do 2 eexists. split; [reflexivity|]. right. exists (send_file fs data).
      cbn. split; [reflexivity|]. split; [congruence|tauto].
    + do 2 eexists. split; [reflexivity|]. left. cbn. tauto.
    + destruct Hf; [lia|reflexivity].
  - rewrite (request_unread _ _ _ _ _ E).
    do 2 eexists. split; [reflexivity|]. left. cbn. tauto.
Qed.

(** X13: the headers of a well-formed request have no influence on the
    answer: two connections that ask for the same URI are answered with the
    same status and the same bytes, by the worker thread and, from the same
    counters, by the child process. *)
Theorem headers_are_ignored (m : Fork.machine) (fs : filesys) (webRoot : string)
    (pid1 pid2 : Z) (c1 c2 : connection) (a : Fork.reqstat) (uri : string) :
  asks_for (input c1) uri ->
  asks_for (input c2) uri ->
  (exists o1 o2 log1 log2,
     Pool.thr_worker fs webRoot c1 = Some (o1, log1) /\
     Pool.thr_worker fs webRoot c2 = Some (o2, log2) /\
     statusCode o1 = statusCode o2 /\ final o1 = final o2) /\
  (exists o1 o2 log1 log2,
     Fork.main_child m webRoot pid1 c1 a = Some (o1, log1) /\
     Fork.main_child m webRoot pid2 c2 a = Some (o2, log2) /\
     statusCode o1 = statusCode o2 /\ final o1 = final o2).
Proof.
  intros H1 H2. split.
  - destruct (request_asks Pool.sendStatusLine (Pool.handleFileRequest fs)
                webRoot _ _ [] H1) as [v1 R1].
    destruct (request_asks Pool.sendStatusLine (Pool.handleFileRequest fs)
                webRoot _ _ [] H2) as [v2 R2].
    unfold Pool.thr_worker. rewrite R1, R2.
    do 4 eexists. split; [reflexivity|]. split; [reflexivity|]. split; reflexivity.
  - destruct (request_asks Fork.sendStatusLine (Fork.handleFileRequest m)
                webRoot _ _ {| Fork.sent := []; Fork.area := a |} H1) as [v1 R1].
    destruct (request_asks Fork.sendStatusLine (Fork.handleFileRequest m)
                webRoot _ _ {| Fork.sent := []; Fork.area := a |} H2) as [v2 R2].
    unfold Fork.main_child. rewrite R1, R2.
    do 4 eexists. split; [reflexivity|]. split; [reflexivity|]. split; reflexivity.
Qed.

Lemma asks_for_index_plain :
  asks_for (input (client ("GET /index.html HTTP/1.0" +:+ crlf +:+ crlf))) "/index.html".
Proof.
  exists ("GET /index.html HTTP/1.0" +:+ crlf), "HTTP/1.0",
    {| pending := crlf; broken := false |},
    {| pending := EmptyString; broken := false |}.
  split; [vm_compute; reflexivity|]. split; [vm_compute; reflexivity|].
  split; [now left|]. split; [exists "index.html"; reflexivity|].
  split; [intros H; apply strstr_contains in H; vm_compute in H; discriminate H|].
  split; [|vm_compute; reflexivity].
  intros H. assert (T : traversal "/index.html" = true)
    by (apply traversal_catches; now right).
  vm_compute in T. discriminate T.
Qed.

Lemma asks_for_index_headers :
  asks_for (input (client ("GET /index.html HTTP/1.1" +:+ crlf +:+
                           "Host: example" +:+ crlf +:+
                           "Accept: */*" +:+ lf +:+ lf)))
           "/index.html".
Proof.
  exists ("GET /index.html HTTP/1.1" +:+ crlf), "HTTP/1.1",
    {| pending := "Host: example" +:+ crlf +:+ "Accept: */*" +:+ lf +:+ lf;
       broken := false |},
    {| pending := EmptyString; broken := false |}.
  split; [vm_compute; reflexivity|]. split; [vm_compute; reflexivity|].
  split; [now right|]. split; [exists "index.html"; reflexivity|].
  split; [intros H; apply strstr_contains in H; vm_compute in H; discriminate H|].
  split; [|vm_compute; reflexivity].
  intros H. assert (T : traversal "/index.html" = true)
    by (apply traversal_catches; now right).
  vm_compute in T. discriminate T.
Qed.

Lemma headers_are_ignored_witness :
  let c1 := client ("GET /index.html HTTP/1.0" +:+ crlf +:+ crlf) in
  let c2 := client ("GET /index.html HTTP/1.1" +:+ crlf +:+
                    "Host: example" +:+ crlf +:+ "Accept: */*" +:+ lf +:+ lf) in
  (exists o1 o2 log1 log2,
     Pool.thr_worker one_file "/srv" c1 = Some (o1, log1) /\
     Pool.thr_worker one_file "/srv" c2 = Some (o2, log2) /\
     statusCode o1 = statusCode o2 /\ final o1 = final o2) /\
  (exists o1 o2 log1 log2,
     Fork.main_child one_file_machine "/srv" 4242 c1 Fork.area_init = Some (o1, log1) /\
     Fork.main_child one_file_machine "/srv" 4243 c2 Fork.area_init = Some (o2, log2) /\
     statusCode o1 = statusCode o2 /\ final o1 = final o2).
Proof.
  cbv zeta.
  exact (headers_are_ignored one_file_machine one_file "/srv" 4242 4243 _ _
           Fork.area_init "/index.html" asks_for_index_plain asks_for_index_headers).
Defined.

(** ** The counters, one request at a time *)

(** X11: one request handled by a child moves the counters by at most one
    response.  From counters below INT_MAX, no counter goes down, each goes
    up by at most one, the four together go up by one exactly when something
    was sent, and the 3xx counter is never touched. *)
Theorem child_counts_at_most_once (m : Fork.machine) (webRoot : string) (pid : Z)
    (c : connection) (a : Fork.reqstat) :
  0 <= Fork.num_two a < Fork.INT_MAX ->
  0 <= Fork.num_four a < Fork.INT_MAX ->
  0 <= Fork.num_five a < Fork.INT_MAX ->
  exists o log,
    Fork.main_child m webRoot pid c a = Some (o, log) /\
    Fork.num_three (Fork.area (final o)) = Fork.num_three a /\
    Fork.num_two a <= Fork.num_two (Fork.area (final o)) <= Fork.num_two a + 1 /\
    Fork.num_four a <= Fork.num_four (Fork.area (final o)) <= Fork.num_four a + 1 /\
    Fork.num_five a <= Fork.num_five (Fork.area (final o)) <= Fork.num_five a + 1 /\
    Fork.num_two (Fork.area (final o)) + Fork.num_four (Fork.area (final o))
      + Fork.num_five (Fork.area (final o))
    = Fork.num_two a + Fork.num_four a + Fork.num_five a
      + (if responded o then 1 else 0).
Proof.
  intros H2 H4 H5.
  destruct (child_accounting m webRoot pid c a) as (o & log & E & Ho).
  exists o, log. split; [exact E|].
  destruct Ho as [(-> & _ & ->)|(-> & Hcode & ->)]; [repeat split; lia|].
  destruct Hcode as [-> | [-> | [-> | ->]]];
    unfold Fork.tally; hundreds; cbn; rewrite int_small by lia; repeat split; lia.
Qed.

Lemma child_counts_at_most_once_witness :
  exists o log,
    Fork.main_child plain_machine "/srv" 4242
      (client ("GET /missing.html HTTP/1.0" +:+ crlf +:+ crlf)) three_and_one
      = Some (o, log) /\
    Fork.num_three (Fork.area (final o)) = Fork.num_three three_and_one /\
    Fork.num_two three_and_one <= Fork.num_two (Fork.area (final o))
      <= Fork.num_two three_and_one + 1 /\
    Fork.num_four three_and_one <= Fork.num_four (Fork.area (final o))
      <= Fork.num_four three_and_one + 1 /\
    Fork.num_five three_and_one <= Fork.num_five (Fork.area (final o))
      <= Fork.num_five three_and_one + 1 /\
    Fork.num_two (Fork.area (final o)) + Fork.num_four (Fork.area (final o))
      + Fork.num_five (Fork.area (final o))
    = Fork.num_two three_and_one + Fork.num_four three_and_one
      + Fork.num_five three_and_one + (if responded o then 1 else 0).
Proof.
  apply (child_counts_at_most_once plain_machine "/srv" 4242
           (client ("GET /missing.html HTTP/1.0" +:+ crlf +:+ crlf)) three_and_one);
    vm_compute; split; (discriminate || reflexivity).
Defined.

(** ** The statistics page, for all counters *)

Lemma nul_free_append (a b : string) : nul_free a -> nul_free b -> nul_free (a +:+ b).
Proof. intros Ha Hb. unfold nul_free. rewrite c_str_append by exact Ha. now rewrite Hb. Qed.

Lemma nul_free_digits (d : Decimal.uint) : nul_free (NilEmpty.string_of_uint d).
Proof.
  induction d; cbn [NilEmpty.string_of_uint]; [reflexivity|..];
    (apply nul_free_String; split; [discriminate|assumption]).
Qed.

Lemma nul_free_show_int (z : Z) : nul_free (show_int z).
Proof.
  unfold show_int, NilZero.string_of_int, NilZero.string_of_uint.
  destruct (Z.to_int z) as [d|d].
  - destruct d; try reflexivity; apply (nul_free_digits (_ d)).
  - apply nul_free_String. split; [discriminate|].
    destruct d; try reflexivity; apply (nul_free_digits (_ d)).
Qed.

Lemma nul_free_statistics_page (two three four five : Z) :
  nul_free (statistics_page two three four five).
Proof.
  unfold statistics_page.
  repeat (apply nul_free_append; [first [apply nul_free_show_int | reflexivity]|]).
  reflexivity.
Qed.

(** The page [showstatistics] prints for counters whose sum fits an int. *)
Lemma showstatistics_page (a : Fork.reqstat) :
  0 <= Fork.num_two a -> 0 <= Fork.num_three a ->
  0 <= Fork.num_four a -> 0 <= Fork.num_five a ->
  Fork.num_two a + Fork.num_three a + Fork.num_four a + Fork.num_five a
    <= Fork.INT_MAX ->
  Fork.showstatistics 200 {| Fork.sent := []; Fork.area := a |} =
    {| Fork.sent := [statistics_page (Fork.num_two a) (Fork.num_three a)
                       (Fork.num_four a) (Fork.num_five a)];
       Fork.area := a |}.
Proof.
  intros H2 H3 H4 H5 Hsum. unfold Fork.showstatistics, Send.
  cbn [Fork.sent Fork.area app].
  rewrite (int_small (Fork.num_two a + Fork.num_three a)) by lia.
  rewrite (int_small (Fork.num_two a + Fork.num_three a + Fork.num_four a)) by lia.
  rewrite (int_small (Fork.num_two a + Fork.num_three a + Fork.num_four a
                      + Fork.num_five a)) by lia.
  f_equal. f_equal.
  transitivity (c_str (statistics_page (Fork.num_two a) (Fork.num_three a)
                         (Fork.num_four a) (Fork.num_five a)));
    [reflexivity|apply nul_free_statistics_page].
Qed.

(** X12: a well-formed GET for the statistics URI is answered by the child
    process with status 200 and the statistics page, whatever the document
    root holds.  The request is counted as a 2xx response first, so for
    counters two, three, four, five (not negative, their sum below INT_MAX)
    the page shows two + 1, three, four, five and their sum, and the 2xx
    counter is two + 1 afterwards. *)
Theorem statistics_page_shows_counters (m : Fork.machine) (webRoot : string)
    (pid : Z) (c : connection) (a : Fork.reqstat) (uri : string) :
  asks_for (input c) uri ->
  uri = Fork.statistics +:+ c_str (Fork.behind_statistics m) ->
  0 <= Fork.num_two a -> 0 <= Fork.num_three a ->
  0 <= Fork.num_four a -> 0 <= Fork.num_five a ->
  Fork.num_two a + Fork.num_three a + Fork.num_four a + Fork.num_five a
    < Fork.INT_MAX ->
  exists o log,
    Fork.main_child m webRoot pid c a = Some (o, log) /\
    statusCode o = 200 /\
    Fork.sent (final o) =
      [statistics_page (Fork.num_two a + 1) (Fork.num_three a)
         (Fork.num_four a) (Fork.num_five a)] /\
    Fork.area (final o) =
      {| Fork.num_two := Fork.num_two a + 1; Fork.num_three := Fork.num_three a;
         Fork.num_four := Fork.num_four a; Fork.num_five := Fork.num_five a |}.
Proof.
  intros Hask Huri H2 H3 H4 H5 Hsum.
  destruct (request_asks Fork.sendStatusLine (Fork.handleFileRequest m)
              webRoot _ _ {| Fork.sent := []; Fork.area := a |} Hask) as [ver Hr].
  unfold Fork.main_child. rewrite Hr. unfold Fork.handleFileRequest.
  rewrite (statistics_strcmp m uri (asks_for_nul_free _ _ Hask)).
  rewrite bool_decide_eq_true_2 by exact Huri.
  cbn [fst snd final statusCode Fork.sent Fork.area]. unfold Fork.add_two.
  rewrite int_small by lia. rewrite showstatistics_page by (cbn; lia).
  do 2 eexists. split; [reflexivity|]. repeat split.
Qed.

Lemma statistics_page_shows_counters_witness :
  exists o log,
    Fork.main_child one_file_machine "/srv" 4242
      (client ("GET /statistics HTTP/1.1" +:+ crlf +:+ "Host: example" +:+ crlf +:+ crlf))
      three_and_one = Some (o, log) /\
    statusCode o = 200 /\
    Fork.sent (final o) = [statistics_page (3 + 1) 0 1 0] /\
    Fork.area (final o) =
      {| Fork.num_two := 3 + 1; Fork.num_three := 0;
         Fork.num_four := 1; Fork.num_five := 0 |}.
Proof.
  apply (statistics_page_shows_counters one_file_machine "/srv" 4242
           (client ("GET /statistics HTTP/1.1" +:+ crlf +:+ "Host: example"
                    +:+ crlf +:+ crlf))
           three_and_one "/statistics");
    try (vm_compute; (discriminate || reflexivity)).
  exists ("GET /statistics HTTP/1.1" +:+ crlf), "HTTP/1.1",
    {| pending := "Host: example" +:+ crlf +:+ crlf; broken := false |},
    {| pending := EmptyString; broken := false |}.
  split; [vm_compute; reflexivity|]. split; [vm_compute; reflexivity|].
  split; [now right|]. split; [exists "statistics"; reflexivity|].
  split; [intros H; apply strstr_contains in H; vm_compute in H; discriminate H|].
  split; [|vm_compute; reflexivity].
  intros H. assert (T : traversal "/statistics" = true)
    by (apply traversal_catches; now right).
  vm_compute in T. discriminate T.
Defined.

(** ** The queue and the heap *)

Section Queue_more.
Import Pool.
Variable malloc : gmap loc message -> loc.
Hypothesis malloc_fresh : forall h : gmap loc message, h !! malloc h = None.

Lemma put_heap (mem mem' : memory) (ls : list loc) (s : Z) :
  chain mem ls -> queue_put malloc mem s = Some mem' ->
  forall l, l ∉ ls -> l <> malloc (heap mem) -> heap mem' !! l = heap mem !! l.
Proof.
  intros (Hp & Hlen & _ & Hlast) Hput l Hl Hne. unfold queue_put in Hput.
  destruct (q_length (q mem) =? 0).
  - injection Hput as <-. cbn [heap]. now rewrite lookup_insert_ne.
  - destruct (q_last (q mem)) as [l0|] eqn:E0; [|discriminate].
    destruct (_ !! l0) as [msg|]; [|discriminate]. injection Hput as <-.
    cbn [heap]. rewrite !lookup_insert_ne; [reflexivity|congruence|].
    intros <-. apply Hl. apply last_Some_elem_of. now rewrite <- Hlast.
Qed.

Lemma get_heap (mem mem' : memory) (s : Z) (x : loc) :
  queue_get mem = Returns s mem' -> q_first (q mem) = Some x ->
  heap mem' = delete x (heap mem).
Proof.
  unfold queue_get. intros H Hx. rewrite Hx in H.
  destruct (q_length (q mem) =? 0); [discriminate|].
  destruct (heap mem !! x); [|discriminate]. now injection H as _ <-.
Qed.

Lemma run_owns (h0 : gmap loc message) (ops : list op) :
  forall (mem : memory) (ls : list loc),
    owns mem ls h0 ->
    admissible (Z.of_nat (List.length ls)) ops = true ->
    exists out mem' ls',
      run malloc ops mem = Some (out, mem') /\
      owns mem' ls' h0 /\
      Z.of_nat (List.length ls') =
        Z.of_nat (List.length ls) + Z.of_nat (List.length (puts ops))
        - Z.of_nat (gets_of ops).
Proof.
  induction ops as [|[s|] ops IH]; intros mem ls (Hc & Hout & Hin) Hadm.
  - exists [], mem, ls. cbn. split; [reflexivity|]. split; [now split|lia].
  - cbn [admissible] in Hadm. apply andb_prop in Hadm as [Hroom Hadm].
    apply Z.ltb_lt in Hroom.
    destruct (chain_put malloc malloc_fresh mem ls s Hc) as (mem1 & Hput & Hc1 & _).
    { destruct Hc as (_ & -> & _). exact Hroom. }
    pose proof (malloc_not_on_path malloc malloc_fresh _ _ _ (proj1 Hc)) as Hfresh.
    destruct (IH mem1 (ls ++ [malloc (heap mem)])) as (out & mem' & ls' & Hrun & Ho & Hn).
    + split; [exact Hc1|]. split.
      * intros l Hl. apply not_elem_of_app in Hl as [Hl Hl'].
        rewrite (put_heap _ _ _ _ Hc Hput l Hl); [now apply Hout|].
        intros ->. apply Hl'. now left.
      * intros l Hl. apply elem_of_app in Hl as [Hl|Hl]; [now apply Hin|].
        apply list_elem_of_singleton in Hl as ->.
        rewrite <- (Hout _ Hfresh). apply malloc_fresh.
    + rewrite length_app. cbn [List.length].
      replace (Z.of_nat (List.length ls + 1)) with (Z.of_nat (List.length ls) + 1)
        by lia. exact Hadm.
    + exists out, mem', ls'. cbn [run puts gets_of List.length]. rewrite Hput.
      split; [exact Hrun|]. split; [exact Ho|].
      rewrite length_app in Hn. cbn [List.length] in Hn. lia.
  - cbn [admissible] in Hadm. apply andb_prop in Hadm as [Hsome Hadm].
    apply Z.ltb_lt in Hsome. destruct ls as [|x ls]; [cbn in Hsome; lia|].
    destruct (chain_get mem x ls Hc) as (mem1 & Hget & Hc1 & _).
    pose proof (get_heap _ _ _ x Hget (proj1 (proj1 Hc))) as Hheap.
    pose proof (path_NoDup _ _ _ (proj1 Hc)) as Hnd.
    apply NoDup_cons in Hnd as [Hx _].
    destruct (IH mem1 ls) as (out & mem' & ls' & Hrun & Ho & Hn).
    + split; [exact Hc1|]. split.
      * intros l Hl. rewrite Hheap. destruct (decide (l = x)) as [->|Hne].
        -- rewrite lookup_delete_eq. symmetry. apply Hin. now left.
        -- rewrite lookup_delete_ne by congruence. apply Hout.
           intros H. apply elem_of_cons in H as [H|H]; [congruence|contradiction].
      * intros l Hl. apply Hin. now right.
    + cbn [List.length] in Hadm.
      replace (Z.of_nat (S (List.length ls)) - 1) with (Z.of_nat (List.length ls))
        in Hadm by lia. exact Hadm.
    + exists (sock_at (heap mem) x :: out), mem', ls'.
      cbn [run puts gets_of List.length]. rewrite Hget, Hrun.
      split; [reflexivity|]. split; [exact Ho|]. cbn [List.length] in Hn. lia.
Qed.

(** The loop of [queue_destroy] frees the nodes of the list and nothing
    else. *)
Lemma drain_path (ls : list loc) :
  forall mem : memory,
    path (heap mem) (q_first (q mem)) ls ->
    q_length (q mem) = Z.of_nat (List.length ls) ->
    q_length (q mem) <= UINT_MAX ->
    exists mem',
      drain (List.length ls) mem = Drained mem' /\
      q_first (q mem') = None /\ q_length (q mem') = 0 /\
      (forall l, l ∉ ls -> heap mem' !! l = heap mem !! l) /\
      (forall l, l ∈ ls -> heap mem' !! l = None).
Proof.
  induction ls as [|x ls IH]; intros mem Hp Hlen Hmax.
  - exists mem. cbn in *. rewrite Hlen. cbn. repeat split; try tauto.
    intros l Hl. inversion Hl.
  - pose proof (path_NoDup _ _ _ Hp) as Hnd. apply NoDup_cons in Hnd as [Hx _].
    destruct Hp as [Hfirst (msg & Hmsg & Hp)].
    cbn [List.length drain] in *.
    destruct (Z.eqb_spec (q_length (q mem)) 0) as [E|_]; [lia|].
    rewrite Hfirst, Hmsg.
    destruct (IH {| heap := delete x (heap mem);
                    q := {| q_first := next msg; q_last := q_last (q mem);
                            q_length := uint (q_length (q mem) - 1) |} |})
      as (mem' & Hd & Hf & Hl0 & Hout & Hin).
    + cbn [heap q q_first]. apply (path_frame (heap mem)); [|exact Hp].
      intros l Hl. apply lookup_delete_ne. intros <-. contradiction.
    + cbn [q q_length]. rewrite uint_small by lia. lia.
    + cbn [q q_length]. rewrite uint_small by lia. lia.
    + exists mem'. split; [exact Hd|]. split; [exact Hf|]. split; [exact Hl0|].
      cbn [heap] in Hout. split.
      * intros l Hl. apply not_elem_of_cons in Hl as [Hne Hl].
        rewrite (Hout l Hl). now apply lookup_delete_ne.
      * intros l Hl. apply elem_of_cons in Hl as [->|Hl]; [|now apply Hin].
        rewrite (Hout x Hx). apply lookup_delete_eq.
Qed.

Lemma destroy_chain (mem : memory) (ls : list loc) :
  chain mem ls ->
  exists mem',
    queue_destroy mem = Drained mem' /\
    chain mem' [] /\
    (forall l, l ∉ ls -> heap mem' !! l = heap mem !! l) /\
    (forall l, l ∈ ls -> heap mem' !! l = None).
Proof.
  intros (Hp & Hlen & Hmax & _).
  destruct (drain_path ls mem Hp Hlen Hmax) as (mem' & Hd & Hf & Hl0 & Hout & Hin).
  unfold queue_destroy. rewrite Hlen, Nat2Z.id, Hd.
  eexists. split; [reflexivity|]. split; [|split; assumption].
  unfold chain, UINT_MAX. cbn. rewrite Hf, Hl0. repeat split. lia.
Qed.

(** The accept loop appends what it accepted, descriptor by descriptor. *)
Lemma accept_ready_holds (accept : Z -> Z) (readfds : Z -> bool) (fds : list Z) :
  forall (mem : memory) (socks : list Z),
    holds mem socks ->
    (forall fd, fd ∈ fds -> readfds fd = true -> 0 <= accept fd) ->
    Z.of_nat (List.length socks) + Z.of_nat (List.length fds) <= UINT_MAX ->
    exists mem',
      accept_ready malloc accept readfds fds mem = Some mem' /\
      holds mem' (socks ++ map accept (List.filter readfds fds)).
Proof.
  induction fds as [|fd fds IH]; intros mem socks Hh Hacc Hroom.
  - exists mem. cbn. rewrite app_nil_r. split; [reflexivity|exact Hh].
  - cbn [accept_ready List.filter List.length] in *.
    assert (Hacc' : forall fd', fd' ∈ fds -> readfds fd' = true -> 0 <= accept fd').
    { intros fd' H. apply Hacc. now right. }
    destruct (readfds fd) eqn:R.
    + assert (0 <= accept fd) by (apply Hacc; [now left|exact R]).
      destruct (Z.ltb_spec (accept fd) 0) as [|_]; [lia|].
      destruct Hh as (ls & Hc & Hs).
      assert (Hlen : List.length socks = List.length ls)
        by (rewrite <- Hs; apply length_map).
      destruct (chain_put malloc malloc_fresh mem ls (accept fd) Hc)
        as (mem1 & Hput & Hc1 & Hs1).
      { destruct Hc as (_ & -> & _). lia. }
      rewrite Hput.
      destruct (IH mem1 (socks ++ [accept fd])) as (mem' & Hrun & Hh').
      * eexists. split; [exact Hc1|]. rewrite Hs1, Hs. reflexivity.
      * exact Hacc'.
      * rewrite length_app. cbn [List.length]. lia.
      * exists mem'. split; [exact Hrun|]. cbn [map].
        rewrite <- app_assoc in Hh'. exact Hh'.
    + apply IH; [exact Hh|exact Hacc'|lia].
Qed.

Lemma accept_ready_dies (accept : Z -> Z) (readfds : Z -> bool) (fds : list Z)
    (bad : Z) :
  bad ∈ fds -> readfds bad = true -> accept bad < 0 ->
  forall mem, accept_ready malloc accept readfds fds mem = None.
Proof.
  intros Hin Hr Hneg. induction fds as [|fd fds IH]; intros mem; [inversion Hin|].
  cbn [accept_ready]. apply elem_of_cons in Hin as [<-|Hin].
  - rewrite Hr. destruct (Z.ltb_spec (accept bad) 0); [reflexivity|lia].
  - destruct (readfds fd); [|now apply IH].
    destruct (accept fd <? 0); [reflexivity|].
    destruct (queue_put malloc mem (accept fd)); [now apply IH|reflexivity].
Qed.
End Queue_more.

(** X14: the queue keeps no message it has handed out.  After every history
    that can happen on a queue made by queue_init, the list of the queue has
    one node per socket still waiting, these nodes occupy addresses that
    were free before, and everywhere else the heap is as it was before
    queue_init: each queue_get has freed the message of the socket it
    returned. *)
Theorem queue_frees_what_it_returns
    (malloc : gmap Pool.loc Pool.message -> Pool.loc)
    (malloc_fresh : forall h : gmap Pool.loc Pool.message, h !! malloc h = None)
    (mem0 : Pool.memory) (ops : list Pool.op) :
  Pool.admissible 0 ops = true ->
  exists out mem ls,
    Pool.run malloc ops (Pool.queue_init mem0) = Some (out, mem) /\
    Pool.chain mem ls /\
    Z.of_nat (List.length ls)
      = Z.of_nat (List.length (Pool.puts ops)) - Z.of_nat (Pool.gets_of ops) /\
    (forall l, l ∉ ls -> Pool.heap mem !! l = Pool.heap mem0 !! l) /\
    (forall l, l ∈ ls -> Pool.heap mem0 !! l = None).
Proof.
  intros Hadm.
  destruct (run_owns malloc malloc_fresh (Pool.heap mem0) ops (Pool.queue_init mem0) [])
    as (out & mem & ls & Hrun & (Hc & Hout & Hin) & Hn); [|exact Hadm|].
  - split; [apply chain_init|]. split; [reflexivity|]. intros l Hl. inversion Hl.
  - exists out, mem, ls. cbn [List.length] in Hn.
    split; [exact Hrun|]. split; [exact Hc|]. split; [lia|]. split; assumption.
Qed.

Lemma queue_frees_what_it_returns_witness :
  exists out mem ls,
    Pool.run first_free
      [Pool.Put 4; Pool.Put 9; Pool.Get; Pool.Put 1; Pool.Get; Pool.Put 6]
      (Pool.queue_init fresh_memory) = Some (out, mem) /\
    Pool.chain mem ls /\
    Z.of_nat (List.length ls) = 4 - 2 /\
    (forall l, l ∉ ls -> Pool.heap mem !! l = Pool.heap fresh_memory !! l) /\
    (forall l, l ∈ ls -> Pool.heap fresh_memory !! l = None).
Proof.
  apply (queue_frees_what_it_returns first_free first_free_fresh fresh_memory
           [Pool.Put 4; Pool.Put 9; Pool.Get; Pool.Put 1; Pool.Get; Pool.Put 6]).
  reflexivity.
Defined.

(** X15: on a queue that satisfies the structural invariant, queue_destroy
    runs to its end without touching NULL or freed memory.  Afterwards the
    queue is empty and satisfies the invariant, every node of the list has
    been freed, and the rest of the heap is unchanged. *)
Theorem queue_destroy_frees_the_list (mem : Pool.memory) :
  Pool.queue_inv mem ->
  exists mem' ls,
    Pool.chain mem ls /\
    Pool.queue_destroy mem = Pool.Drained mem' /\
    Pool.queue_inv mem' /\
    Pool.q_length (Pool.q mem') = 0 /\
    (forall l, l ∉ ls -> Pool.heap mem' !! l = Pool.heap mem !! l) /\
    (forall l, l ∈ ls -> Pool.heap mem' !! l = None).
Proof.
  intros [_ [ls Hc]].
  destruct (destroy_chain mem ls Hc) as (mem' & Hd & Hc' & Hout & Hin).
  exists mem', ls. split; [exact Hc|]. split; [exact Hd|].
  split; [exact (chain_inv _ _ Hc')|]. split; [|split; assumption].
  destruct Hc' as (_ & Hlen & _). exact Hlen.
Qed.

Lemma two_waiting_inv : Pool.queue_inv two_waiting.
Proof.
  destruct (run_fifo first_free first_free_fresh [Pool.Put 4; Pool.Put 9]
              (Pool.queue_init fresh_memory) []) as (mem & Hrun & (ls & Hc & _)).
  - exists []. split; [apply chain_init|reflexivity].
  - reflexivity.
  - unfold two_waiting. rewrite Hrun. exact (chain_inv _ _ Hc).
Qed.

Lemma queue_destroy_frees_the_list_witness :
  exists mem' ls,
    Pool.chain two_waiting ls /\
    Pool.queue_destroy two_waiting = Pool.Drained mem' /\
    Pool.queue_inv mem' /\
    Pool.q_length (Pool.q mem') = 0 /\
    (forall l, l ∉ ls -> Pool.heap mem' !! l = Pool.heap two_waiting !! l) /\
    (forall l, l ∈ ls -> Pool.heap mem' !! l = None).
Proof.
  exact (queue_destroy_frees_the_list two_waiting two_waiting_inv).
Defined.

(** X16: queue_destroy after any history that can happen leaves no message
    behind: the heap is again what it was before queue_init, and the queue
    is empty. *)
Theorem queue_destroy_after_run
    (malloc : gmap Pool.loc Pool.message -> Pool.loc)
    (malloc_fresh : forall h : gmap Pool.loc Pool.message, h !! malloc h = None)
    (mem0 : Pool.memory) (ops : list Pool.op) :
  Pool.admissible 0 ops = true ->
  exists out mem mem',
    Pool.run malloc ops (Pool.queue_init mem0) = Some (out, mem) /\
    Pool.queue_destroy mem = Pool.Drained mem' /\
    Pool.heap mem' = Pool.heap mem0 /\
    Pool.queue_inv mem' /\
    Pool.q_length (Pool.q mem') = 0.
Proof.
  intros Hadm.
  destruct (run_owns malloc malloc_fresh (Pool.heap mem0) ops (Pool.queue_init mem0) [])
    as (out & mem & ls & Hrun & (Hc & Hout & Hin) & _); [|exact Hadm|].
  - split; [apply chain_init|]. split; [reflexivity|]. intros l Hl. inversion Hl.
  - destruct (destroy_chain mem ls Hc) as (mem' & Hd & Hc' & Hout' & Hin').
    exists out, mem, mem'. split; [exact Hrun|]. split; [exact Hd|]. split.
    + apply map_eq. intros l. destruct (decide (l ∈ ls)) as [Hl|Hl].
      * rewrite (Hin' l Hl). symmetry. exact (Hin l Hl).
      * rewrite (Hout' l Hl). exact (Hout l Hl).
    + split; [exact (chain_inv _ _ Hc')|]. destruct Hc' as (_ & Hlen & _). exact Hlen.
Qed.

Lemma queue_destroy_after_run_witness :
  exists out mem mem',
    Pool.run first_free [Pool.Put 4; Pool.Put 9; Pool.Get; Pool.Put 1]
      (Pool.queue_init fresh_memory) = Some (out, mem) /\
    Pool.queue_destroy mem = Pool.Drained mem' /\
    Pool.heap mem' = Pool.heap fresh_memory /\
    Pool.queue_inv mem' /\
    Pool.q_length (Pool.q mem') = 0.
Proof.
  apply (queue_destroy_after_run first_free first_free_fresh fresh_memory
           [Pool.Put 4; Pool.Put 9; Pool.Get; Pool.Put 1]).
  reflexivity.
Defined.

(** ** The accept loop of the second program *)

Lemma elem_of_validfds (nfds : nat) (fd : Z) :
  fd ∈ Pool.validfds nfds <-> 1 <= fd <= Z.of_nat nfds.
Proof.
  unfold Pool.validfds. rewrite list_elem_of_fmap. split.
  - intros (n & -> & Hn). apply elem_of_seq in Hn. lia.
  - intros H. exists (Z.to_nat fd). split; [lia|]. apply elem_of_seq. lia.
Qed.

(** X17: one pass of main's loop over the descriptors 1 to nfds, when accept
    succeeds on every descriptor that is set in readfds: exactly one
    connection is accepted on each such descriptor, and the accepted sockets
    are appended to the queue in ascending order of the listening
    descriptor, behind the sockets already waiting.  Descriptor 0 is never
    looked at. *)
Theorem main_pass_enqueues
    (malloc : gmap Pool.loc Pool.message -> Pool.loc)
    (malloc_fresh : forall h : gmap Pool.loc Pool.message, h !! malloc h = None)
    (accept : Z -> Z) (readfds : Z -> bool) (nfds : nat)
    (mem : Pool.memory) (socks : list Z) :
  Pool.holds mem socks ->
  (forall fd, 1 <= fd <= Z.of_nat nfds -> readfds fd = true -> 0 <= accept fd) ->
  Z.of_nat (List.length socks) + Z.of_nat nfds <= Pool.UINT_MAX ->
  exists mem',
    Pool.main_pass malloc accept readfds nfds mem = Some mem' /\
    Pool.holds mem'
      (socks ++ map accept (List.filter readfds (Pool.validfds nfds))).
Proof.
  intros Hh Hacc Hroom. unfold Pool.main_pass.
  apply (accept_ready_holds malloc malloc_fresh); [exact Hh| |].
  - intros fd Hfd. apply Hacc. now apply elem_of_validfds.
  - unfold Pool.validfds. rewrite length_map, length_seq. exact Hroom.
Qed.

Lemma holds_two_waiting : Pool.holds two_waiting [4; 9].
Proof.
  destruct (run_fifo first_free first_free_fresh [Pool.Put 4; Pool.Put 9]
              (Pool.queue_init fresh_memory) []) as (mem & Hrun & Hh).
  - exists []. split; [apply chain_init|reflexivity].
  - reflexivity.
  - unfold two_waiting. rewrite Hrun. exact Hh.
Qed.

Lemma main_pass_enqueues_witness :
  exists mem',
    Pool.main_pass first_free accept_plus_10 ready_3_4 5 two_waiting = Some mem' /\
    Pool.holds mem' [4; 9; 13; 14].
Proof.
  apply (main_pass_enqueues first_free first_free_fresh accept_plus_10 ready_3_4 5
           two_waiting [4; 9] holds_two_waiting).
  - intros fd Hfd _. unfold accept_plus_10. lia.
  - vm_compute. discriminate.
Defined.

(** X18: when accept returns a negative value on a descriptor between 1 and
    nfds that is set in readfds, the pass does not complete: main dies in
    it, whatever the other descriptors hold. *)
Theorem failed_accept_ends_the_pass
    (malloc : gmap Pool.loc Pool.message -> Pool.loc)
    (accept : Z -> Z) (readfds : Z -> bool) (nfds : nat)
    (mem : Pool.memory) (bad : Z) :
  1 <= bad <= Z.of_nat nfds ->
  readfds bad = true ->
  accept bad < 0 ->
  Pool.main_pass malloc accept readfds nfds mem = None.
Proof.
  intros Hbad Hr Hneg. unfold Pool.main_pass.
  apply (accept_ready_dies malloc accept readfds _ bad); try assumption.
  now apply elem_of_validfds.
Qed.

Lemma failed_accept_ends_the_pass_witness :
  Pool.main_pass first_free accept_fails_on_4 ready_3_4 5 two_waiting = None.
Proof.
  apply (failed_accept_ends_the_pass first_free accept_fails_on_4 ready_3_4 5
           two_waiting 4); [lia|reflexivity|reflexivity].
Defined.

(** ** The listening sockets *)

Lemma create_listeners_fits (listen_on : string -> Z) (ports : list string) :
  forall done : list Z,
    (List.length done + List.length ports <= 31)%nat ->
    Pool.create_listeners listen_on (S (List.length done)) ports
      (done ++ replicate (32 - List.length done) (-1))
    = Some ((done ++ map listen_on ports)
            ++ replicate (32 - List.length done - List.length ports) (-1)).
Proof.
  induction ports as [|port ports IH]; intros done Hlen.
  - cbn. now rewrite app_nil_r, Nat.sub_0_r.
  - cbn [Pool.create_listeners List.length map] in *.
    destruct (Nat.leb_spec 32 (S (List.length done))) as [|_]; [lia|].
    replace (S (List.length done) - 1)%nat with (List.length done + 0)%nat by lia.
    rewrite insert_app_r.
    replace (32 - List.length done)%nat with (S (31 - List.length done)) by lia.
    cbn [replicate]. change (<[0%nat:=listen_on port]> (-1 :: ?l)) with (listen_on port :: l).
    specialize (IH (done ++ [listen_on port])).
    rewrite length_app in IH. cbn [List.length] in IH.
    replace (S (List.length done + 1)) with (S (S (List.length done))) in IH by lia.
    replace (32 - (List.length done + 1))%nat with (31 - List.length done)%nat in IH by lia.
    rewrite <- !app_assoc in IH. cbn [app] in IH. rewrite IH by lia.
    rewrite <- !app_assoc. cbn [app].
    replace (S (31 - List.length done) - S (List.length ports))%nat
      with (31 - List.length done - List.length ports)%nat by lia.
    reflexivity.
Qed.

Lemma create_listeners_overflow (listen_on : string -> Z) (ports : list string) :
  forall (i : nat) (servSocks : list Z),
    (32 < i + List.length ports)%nat -> ports <> [] ->
    Pool.create_listeners listen_on i ports servSocks = None.
Proof.
  induction ports as [|port ports IH]; intros i ss Hlen Hne; [contradiction|].
  cbn [Pool.create_listeners List.length] in *.
  destruct (Nat.leb_spec 32 i) as [|Hi]; [reflexivity|].
  apply IH; [lia|]. destruct ports; [cbn in Hlen; lia|discriminate].
Qed.

(** X19: the second program listens on at most 31 ports.  With up to 31 port
    arguments the sockets are created in the order of the arguments and
    stored from the start of the array, the unused elements staying -1; with
    32 or more, main dies, although the array has 32 elements. *)
Theorem listeners_at_most_31 (listen_on : string -> Z) (ports : list string) :
  ((List.length ports <= 31)%nat ->
   Pool.listeners listen_on ports
   = Some (map listen_on ports ++ replicate (32 - List.length ports) (-1))) /\
  ((31 < List.length ports)%nat -> Pool.listeners listen_on ports = None).
Proof.
  split; intros H.
  - exact (create_listeners_fits listen_on ports [] H).
  - apply create_listeners_overflow; [lia|]. destruct ports; [cbn in H; lia|discriminate].
Qed.

Lemma listeners_at_most_31_witness :
  Pool.listeners listen_by_length ["80"; "8080"]%string
    = Some ([2; 4] ++ replicate 30 (-1)) /\
  Pool.listeners listen_by_length (replicate 32 "80"%string) = None.
Proof.
  split.
  - apply (proj1 (listeners_at_most_31 listen_by_length ["80"; "8080"]%string)).
    cbn. lia.
  - apply (proj2 (listeners_at_most_31 listen_by_length (replicate 32 "80"%string))).
    cbn. lia.
Defined.
